(** * lwreport: light-weight standalone HTML reports

    A shallow embedding of [lwreport.py] (Python 2) and the properties of its
    render tree, grid layout, resource cache and persistence pipeline.

    Conventions of the embedding:
    - a Python [str] is a [string] (a sequence of bytes);
    - a Python [int] is a [Z];
    - an exception is a value of [exn]; a computation that may raise returns
      a [result];
    - instances of [RenderObject] live in a heap indexed by object identity,
      because [Node.add] mutates the receiver and hands out aliases;
    - module globals ([_PATH], [_CACHE]), the file system, the network log
      and the browser form the [World] that stateful functions thread;
    - what the interpreter and the optional libraries supply (MD5, the
      network, numpy, pandas, plotly, the clock, the process environment)
      is the [Platform] interface. *)

From Stdlib Require Import ZArith DecimalString Ascii String.
From stdpp Require Import gmap strings list fin_maps.

(** ** Exceptions and results *)

Inductive exn : Type :=
  | ValueError (msg : string)
  | TypeError (msg : string)
  | ImportError (msg : string)
  | AttributeError (msg : string)
  | NotImplementedError
  | UnicodeEncodeError
  | RuntimeError (msg : string)
  | ZeroDivisionError
  | KeyError (key : string)
  | URLError (url : string).

Inductive result (A : Type) : Type :=
  | Ok (a : A)
  | Raise (e : exn).
Arguments Ok {A} a.
Arguments Raise {A} e.

#[global] Instance result_ret : MRet result := λ A a, Ok a.
#[global] Instance result_bind : MBind result := λ A B f r,
  match r with
  | Ok a => f a
  | Raise e => Raise e
  end.
#[global] Instance result_fmap : FMap result := λ A B f r,
  match r with
  | Ok a => Ok (f a)
  | Raise e => Raise e
  end.

Definition is_Ok {A} (r : result A) : Prop := ∃ a, r = Ok a.
Definition is_Raise {A} (r : result A) : Prop := ∃ e, r = Raise e.

(** ** Characters and strings *)

(** The quotation mark and the line feed, for the HTML templates. *)
Definition dq : string := String "034"%char EmptyString.
Definition nl : string := String "010"%char EmptyString.

Definition ascii_in (lo hi : nat) (c : ascii) : bool :=
  (lo <=? nat_of_ascii c)%nat && (nat_of_ascii c <=? hi)%nat.

(** [\s] of [re] on a byte string without flags, which is also the set that
    [str.strip()] removes: space, \t, \n, \v, \f, \r. *)
Definition is_space (c : ascii) : bool :=
  ascii_in 9 13 c || (nat_of_ascii c =? 32)%nat.

(** [\w] of [re] on a byte string without flags: [a-zA-Z0-9_]. *)
Definition is_word (c : ascii) : bool :=
  ascii_in 48 57 c || ascii_in 65 90 c || ascii_in 97 122 c
  || (nat_of_ascii c =? 95)%nat.

Definition is_hyphen (c : ascii) : bool := (nat_of_ascii c =? 45)%nat.

(** [str(n)] for an [int]. *)
Definition str_int (z : Z) : string := NilZero.string_of_int (Z.to_int z).

(** *** The [%] operator on strings

    Conversions [%s], [%d] and [%%]; a right operand that is not a tuple
    counts as a tuple of one. *)
Inductive fmt_arg : Type :=
  | FStr (s : string)
  | FInt (z : Z).

Definition fmt_s (a : fmt_arg) : string :=
  match a with
  | FStr s => s
  | FInt z => str_int z
  end.

Definition fmt_d (a : fmt_arg) : result string :=
  match a with
  | FStr _ => Raise (TypeError "%d format: a number is required, not str")
  | FInt z => Ok (str_int z)
  end.

Definition is_percent (c : ascii) : bool := (nat_of_ascii c =? 37)%nat.

Fixpoint py_mod (fmt : string) (args : list fmt_arg) : result string :=
  match fmt with
  | EmptyString =>
      match args with
      | [] => Ok EmptyString
      | _ :: _ =>
          Raise (TypeError
                   "not all arguments converted during string formatting")
      end
  | String c fmt' =>
      if is_percent c then
        match fmt' with
        | EmptyString => Raise (ValueError "incomplete format")
        | String k rest =>
            if is_percent k then String k <$> py_mod rest args
            else if (nat_of_ascii k =? 115)%nat (* s *) then
              match args with
              | [] => Raise (TypeError "not enough arguments for format string")
              | a :: args' => (λ r, fmt_s a +:+ r) <$> py_mod rest args'
              end
            else if (nat_of_ascii k =? 100)%nat (* d *) then
              match args with
              | [] => Raise (TypeError "not enough arguments for format string")
              | a :: args' =>
                  d ← fmt_d a; (λ r, d +:+ r) <$> py_mod rest args'
              end
            else Raise (ValueError "unsupported format character")
        end
      else String c <$> py_mod fmt' args
  end.

(** *** Regular expressions of the slug

    Both patterns are character classes, so substitution is a scan. *)

(** [re.sub] for a pattern that is one character class. *)
Fixpoint re_sub_class (cls : ascii → bool) (repl s : string) : string :=
  match s with
  | EmptyString => EmptyString
  | String c s' =>
      if cls c then repl +:+ re_sub_class cls repl s'
      else String c (re_sub_class cls repl s')
  end.

(** [re.sub] for a pattern [[cls]+]: every maximal run is replaced once.
    [in_run] tells that the previous character belonged to a run. *)
Fixpoint re_sub_runs (cls : ascii → bool) (repl : string) (in_run : bool)
    (s : string) : string :=
  match s with
  | EmptyString => EmptyString
  | String c s' =>
      if cls c then
        if in_run then re_sub_runs cls repl true s'
        else repl +:+ re_sub_runs cls repl true s'
      else String c (re_sub_runs cls repl false s')
  end.

(** [_re1 = re.compile(r'[^\w\s-]')] *)
Definition _re1 (c : ascii) : bool :=
  negb (is_word c || is_space c || is_hyphen c).

(** [_re2 = re.compile(r'[\s]+')] *)
Definition _re2 (c : ascii) : bool := is_space c.

Definition _re1_sub (repl s : string) : string := re_sub_class _re1 repl s.
Definition _re2_sub (repl s : string) : string :=
  re_sub_runs _re2 repl false s.

Fixpoint py_lstrip (s : string) : string :=
  match s with
  | EmptyString => EmptyString
  | String c s' => if is_space c then py_lstrip s' else s
  end.

Fixpoint py_rstrip (s : string) : string :=
  match s with
  | EmptyString => EmptyString
  | String c s' =>
      match py_rstrip s' with
      | EmptyString => if is_space c then EmptyString else String c EmptyString
      | r => String c r
      end
  end.

(** [s.strip()] *)
Definition py_strip (s : string) : string := py_rstrip (py_lstrip s).

(** [os.path.join(a, b)] of [posixpath], for two components. *)
Definition is_slash (c : ascii) : bool := (nat_of_ascii c =? 47)%nat.

Fixpoint ends_with_slash (s : string) : bool :=
  match s with
  | EmptyString => false
  | String c EmptyString => is_slash c
  | String _ s' => ends_with_slash s'
  end.

Definition path_join (a b : string) : string :=
  match b with
  | String c _ =>
      if is_slash c then b
      else if bool_decide (a = EmptyString) || ends_with_slash a then a +:+ b
      else a +:+ "/" +:+ b
  | EmptyString =>
      if bool_decide (a = EmptyString) || ends_with_slash a then a
      else a +:+ "/"
  end.

(** ** Values

    What [_parse_obj] can tell apart by [isinstance], and a few values it
    rejects.  A [bool] is an [int] in Python; a [long] is not. *)

(** Object identity. *)
Abbreviation loc := positive.

(** A numpy array: its shape and the identity of its buffer. *)
Record ndarray : Type := mk_ndarray {
  nd_shape : list Z;
  nd_buffer : N;
}.

Inductive pyval : Type :=
  | VObj (l : loc)                 (* an instance of RenderObject *)
  | VStr (s : string)              (* str *)
  | VUnicode (cps : list N)        (* unicode, as code points *)
  | VBool (b : bool)
  | VInt (z : Z)
  | VLong (z : Z)
  | VFloat (bits : Z)              (* float, as its binary64 pattern *)
  | VNone
  | VNdarray (a : ndarray)         (* np.ndarray *)
  | VDataFrame (df : N)            (* pd.core.frame.DataFrame *)
  | VFigure (fig : N)              (* plotly.graph_objs.Figure *)
  | VMplFigure (fig : N)           (* matplotlib.figure.Figure *)
  | VOther (type_repr : string) (id : N).

(** Instances of the classes of the module. *)
Inductive robj : Type :=
  | ORenderObject                          (* a bare RenderObject() *)
  | ONode (children : list loc)            (* a bare Node() *)
  | OReport (title : string) (children : list loc)
  | OHeading (title : string) (children : list loc)
  | OGrid (n_cols : Z) (children : list loc)
  | OString (_text : string)
  | OP (_text : loc)
  | ODict (di : list (pyval * pyval))
  | OArray (array : pyval) (max_cols max_rows : Z)
  | ODFrame (df : pyval)
  | OPlot (fig : pyval)
  | OMPlot (fig : pyval).

(** [time.localtime()] *)
Record struct_time : Type := mk_time {
  tm_year : Z;
  tm_mon : Z;
  tm_mday : Z;
  tm_hour : Z;
  tm_min : Z;
  tm_sec : Z;
}.

(** ** The platform *)

Class Platform : Type := {
  (** which optional libraries were imported *)
  _NPY : bool;
  _PDS : bool;
  _PLY : bool;
  _MPL : bool;
  (** [sys.getrecursionlimit()], as the nesting of [_render] calls *)
  recursion_limit : nat;
  (** [str(x)] for a float and for the values [str] is not modelled on *)
  float_str : Z → string;
  other_str : pyval → string;
  (** [urllib2.urlopen(url).read()], given the requests made before and
      whether each returned; [None] is a failed request *)
  urlopen_read : list (string * bool) → string → option string;
  (** [hashlib.md5(s).hexdigest()] *)
  md5_hexdigest : string → string;
  (** [os.environ.get], [os.path.expanduser], [os.path.abspath] *)
  environ_get : string → option string;
  expanduser : string → string;
  abspath : string → string;
  (** [time.strftime("%c", t)] *)
  strftime_c : struct_time → string;
  (** [pd.DataFrame(a[0:rows, 0:cols]).to_html(...)] of [Array._render] *)
  array_to_html : ndarray → Z → Z → string;
  array_str : ndarray → string;
  (** [df.to_html(...)] of [DFrame._render] *)
  frame_to_html : pyval → result string;
  (** [plotly.offline.plot] and [plotly.offline.plot_mpl] *)
  plotly_plot : pyval → result string;
  plotly_plot_mpl : pyval → result string;
}.

(** ** The world: module globals and everything a call can change *)

Record World : Type := mk_world {
  heap : gmap loc robj;              (* the RenderObject instances *)
  _PATH : option string;             (* module global, [None] at import *)
  _CACHE : gmap string string;       (* module global, [{}] at import *)
  files : gmap string string;        (* regular files, by path *)
  dirs : gset string;                (* directories *)
  requests : list (string * bool);   (* urlopen calls and whether they
                                        returned, latest first *)
  browser : list string;             (* webbrowser.open calls, latest first *)
  now : struct_time;                 (* the clock *)
}.

Definition set_heap (h : gmap loc robj) (w : World) : World :=
  mk_world h (_PATH w) (_CACHE w) (files w) (dirs w) (requests w)
           (browser w) (now w).
Definition set_CACHE (c : gmap string string) (w : World) : World :=
  mk_world (heap w) (_PATH w) c (files w) (dirs w) (requests w)
           (browser w) (now w).
Definition set_files (f : gmap string string) (w : World) : World :=
  mk_world (heap w) (_PATH w) (_CACHE w) f (dirs w) (requests w)
           (browser w) (now w).
Definition set_dirs (d : gset string) (w : World) : World :=
  mk_world (heap w) (_PATH w) (_CACHE w) (files w) d (requests w)
           (browser w) (now w).
Definition set_requests (r : list (string * bool)) (w : World) : World :=
  mk_world (heap w) (_PATH w) (_CACHE w) (files w) (dirs w) r
           (browser w) (now w).
Definition set_browser (b : list string) (w : World) : World :=
  mk_world (heap w) (_PATH w) (_CACHE w) (files w) (dirs w) (requests w)
           b (now w).

(** Stateful computations.  What a call did before it raised stays done. *)
Definition M (A : Type) : Type := World → result A * World.

#[global] Instance M_ret : MRet M := λ A a w, (Ok a, w).
#[global] Instance M_bind : MBind M := λ A B f m w,
  match m w with
  | (Ok a, w') => f a w'
  | (Raise e, w') => (Raise e, w')
  end.

Definition raise {A} (e : exn) : M A := λ w, (Raise e, w).
Definition lift {A} (r : result A) : M A := λ w, (r, w).
Definition gets {A} (f : World → A) : M A := λ w, (Ok (f w), w).
Definition modify (f : World → World) : M unit := λ w, (Ok tt, f w).

(** A [for] loop over [xs] that updates an accumulator. *)
Fixpoint for_each {A S} (xs : list A) (body : A → S → M S) (acc : S) : M S :=
  match xs with
  | [] => mret acc
  | x :: xs' => acc' ← body x acc; for_each xs' body acc'
  end.

(** [''.join(parts)] *)
Definition join (parts : list string) : string := String.concat "" parts.

(** *** [string.Template.substitute]

    The templates of the module use the escape [$$] and braced placeholders
    only; any other use of [$] is an invalid placeholder. *)
Inductive tpl_state : Type :=
  | TText
  | TDollar
  | TName (name : string).

Definition is_char (n : nat) (c : ascii) : bool := (nat_of_ascii c =? n)%nat.

Fixpoint assoc (key : string) (mapping : list (string * string))
    : option string :=
  match mapping with
  | [] => None
  | (k, v) :: mapping' =>
      if bool_decide (k = key) then Some v else assoc key mapping'
  end.

Fixpoint substitute_from (st : tpl_state) (mapping : list (string * string))
    (tpl : string) : result string :=
  match tpl with
  | EmptyString =>
      match st with
      | TText => Ok EmptyString
      | _ => Raise (ValueError "Invalid placeholder in string")
      end
  | String c rest =>
      match st with
      | TText =>
          if is_char 36 c (* $ *) then substitute_from TDollar mapping rest
          else String c <$> substitute_from TText mapping rest
      | TDollar =>
          if is_char 36 c then String c <$> substitute_from TText mapping rest
          else if is_char 123 c (* { *) then
            substitute_from (TName EmptyString) mapping rest
          else Raise (ValueError "Invalid placeholder in string")
      | TName name =>
          if is_char 125 c (* } *) then
            match assoc name mapping with
            | Some v => (λ r, v +:+ r) <$> substitute_from TText mapping rest
            | None => Raise (KeyError name)
            end
          else substitute_from (TName (name +:+ String c EmptyString))
                               mapping rest
      end
  end.

Definition substitute (tpl : string) (mapping : list (string * string))
    : result string :=
  substitute_from TText mapping tpl.

(** ** Render objects: construction and rendering

    [_render] is a method, dispatched on the class of the receiver.  Each
    class's body takes the dispatcher as [render], so that the recursion is
    tied once, in [_render] below. *)

(** A new instance: an identity no live object has. *)
Definition alloc (o : robj) : M loc := λ w,
  let l := fresh (dom (heap w)) in
  (Ok l, set_heap (<[l:=o]> (heap w)) w).

(** [str(obj)] *)
Definition py_str `{Platform} (obj : pyval) : result string :=
  match obj with
  | VStr s => Ok s
  | VUnicode cps =>
      (* the default codec is ASCII *)
      if forallb (λ n, n <? 128)%N cps
      then Ok (string_of_list_ascii (map ascii_of_N cps))
      else Raise UnicodeEncodeError
  | VBool b => Ok (if b then "True" else "False")
  | VInt z => Ok (str_int z)
  | VLong z => Ok (str_int z)
  | VFloat x => Ok (float_str x)
  | VNone => Ok "None"
  | _ => Ok (other_str obj)
  end.

(** What [type(obj)] prints as. *)
Definition py_type (obj : pyval) : string :=
  match obj with
  | VObj _ => "<class 'lwreport.RenderObject'>"
  | VStr _ => "<type 'str'>"
  | VUnicode _ => "<type 'unicode'>"
  | VBool _ => "<type 'bool'>"
  | VInt _ => "<type 'int'>"
  | VLong _ => "<type 'long'>"
  | VFloat _ => "<type 'float'>"
  | VNone => "<type 'NoneType'>"
  | VNdarray _ => "<type 'numpy.ndarray'>"
  | VDataFrame _ => "<class 'pandas.core.frame.DataFrame'>"
  | VFigure _ => "<class 'plotly.graph_objs.graph_objs.Figure'>"
  | VMplFigure _ => "<class 'matplotlib.figure.Figure'>"
  | VOther t _ => t
  end.

(** The [isinstance] tests of [_parse_obj]. *)
Definition as_RenderObject (obj : pyval) : option loc :=
  match obj with VObj l => Some l | _ => None end.
Definition is_basestring (obj : pyval) : bool :=
  match obj with VStr _ | VUnicode _ => true | _ => false end.
Definition is_int (obj : pyval) : bool :=
  match obj with VInt _ | VBool _ => true | _ => false end.
Definition is_float (obj : pyval) : bool :=
  match obj with VFloat _ => true | _ => false end.
Definition is_ndarray (obj : pyval) : bool :=
  match obj with VNdarray _ => true | _ => false end.
Definition is_DataFrame (obj : pyval) : bool :=
  match obj with VDataFrame _ => true | _ => false end.
Definition is_go_Figure (obj : pyval) : bool :=
  match obj with VFigure _ => true | _ => false end.
Definition is_mpl_Figure (obj : pyval) : bool :=
  match obj with VMplFigure _ => true | _ => false end.

Definition _TABLE_CLS : string :=
  "table table-condensed table-striped table-hover table-bordered".

Definition _HEADING_TEMPLATE : string :=
  "<div><h${n}>${title}</h${n}>${content}</div>".

(** *** Classes that are final nodes *)

Module RString.
(** [String.__init__] *)
Definition __init__ (text : pyval) : M loc :=
  match text with
  | VStr s => alloc (OString s)
  | _ => raise (ValueError "Only strings are supported!")
  end.

Definition _render (_text : string) (level : Z) : result string :=
  Ok _text.
End RString.

Module Dict.
Definition __init__ (di : list (pyval * pyval)) : M loc := alloc (ODict di).

Definition _render `{Platform} (di : list (pyval * pyval)) (level : Z)
    : result string :=
  e ← mapM (λ kv : pyval * pyval,
              k ← py_str kv.1; v ← py_str kv.2;
              py_mod "<tr><th><b>%s</b></th><td>%s</td></tr>"
                     [FStr k; FStr v]) di;
  py_mod "<table class='%s'><tbody>%s</tbody></table>"
         [FStr _TABLE_CLS; FStr (join e)].
End Dict.

Module Array.
Definition __init__ (array : pyval) (max_cols max_rows : Z) : M loc :=
  alloc (OArray array max_cols max_rows).

Definition _render `{Platform} (array : pyval) (max_cols max_rows : Z)
    (level : Z) : result string :=
  match array with
  | VNdarray a =>
      match nd_shape a with
      | [rows; cols] =>
          if _PDS then
            py_mod "<div class='table-responsive'>%s</div>"
                   [FStr (array_to_html a (rows `min` max_rows)%Z
                                          (cols `min` max_cols)%Z)]
          else Ok (array_str a)
      | _ => Ok (array_str a)
      end
  | _ => Raise (AttributeError "ndim")
  end.
End Array.

Module DFrame.
Definition __init__ (df : pyval) : M loc := alloc (ODFrame df).

Definition _render `{Platform} (df : pyval) (level : Z) : result string :=
  if _PDS then
    html ← frame_to_html df;
    py_mod "<div class='table-responsive'>%s</div>" [FStr html]
  else py_str df.
End DFrame.

Module Plot.
Definition __init__ (fig : pyval) : M loc := alloc (OPlot fig).

Definition _render `{Platform} (fig : pyval) (level : Z) : result string :=
  if _PLY then plotly_plot fig
  else Raise (ImportError "Plotly library could not be loaded!").
End Plot.

Module MPlot.
Definition __init__ (fig : pyval) : M loc := alloc (OMPlot fig).

Definition _render `{Platform} (fig : pyval) (level : Z) : result string :=
  if _PLY then plotly_plot_mpl fig
  else Raise (ImportError "Plotly library could not be loaded!").
End MPlot.

(** *** The dispatch function *)

Definition _parse_obj `{Platform} (obj : pyval) : M loc :=
  match as_RenderObject obj with
  | Some l => mret l
  | None =>
      if is_basestring obj || is_int obj || is_float obj then
        s ← lift (py_str obj); RString.__init__ (VStr s)
      else if _NPY && is_ndarray obj then Array.__init__ obj 15 50
      else if _PDS && is_DataFrame obj then DFrame.__init__ obj
      else if _PLY && is_go_Figure obj then Plot.__init__ obj
      else if _MPL && is_mpl_Figure obj then MPlot.__init__ obj
      else
        msg ← lift (py_mod "Type '%s' not supported for rendering!"
                           [FStr (py_type obj)]);
        raise (ValueError msg)
  end.

Module P.
Definition __init__ `{Platform} (text : pyval) : M loc :=
  t ← _parse_obj text; alloc (OP t).

Definition _render (render : loc → Z → result string) (_text : loc)
    (level : Z) : result string :=
  html ← render _text level; py_mod "<p>%s</p>" [FStr html].
End P.

(** *** Classes that allow children *)

(** The [children] attribute of an instance of [Node]. *)
Definition children_of (o : robj) : option (list loc) :=
  match o with
  | ONode ch | OReport _ ch | OHeading _ ch | OGrid _ ch => Some ch
  | _ => None
  end.

(** [self.children.append(c)] *)
Definition append_child (c : loc) (o : robj) : robj :=
  match o with
  | ONode ch => ONode (ch ++ [c])
  | OReport t ch => OReport t (ch ++ [c])
  | OHeading t ch => OHeading t (ch ++ [c])
  | OGrid k ch => OGrid k (ch ++ [c])
  | _ => o
  end.

Module Node.
(** [Node.add]; the classes that are final nodes do not inherit it. *)
Definition add `{Platform} (self : loc) (child : pyval) : M pyval :=
  o ← gets (λ w, heap w !! self);
  match o ≫= children_of with
  | None => raise (AttributeError "add")
  | Some _ =>
      c ← _parse_obj child;
      modify (λ w, set_heap (alter (append_child c) self (heap w)) w);;
      mret child
  end.

Definition _render_children (render : loc → Z → result string)
    (children : list loc) (level : Z) : result string :=
  join <$> mapM (λ i, render i level) children.
End Node.

Module Heading.
Definition __init__ (title : string) : M loc := alloc (OHeading title []).

Definition _render (render : loc → Z → result string) (title : string)
    (children : list loc) (level : Z) : result string :=
  content ← Node._render_children render children (level + 1);
  substitute _HEADING_TEMPLATE
             [("title", title); ("content", content); ("n", str_int level)].
End Heading.

Module Grid.
(** [Grid.__init__]; [n_cols] defaults to 4 at the call site. *)
Definition __init__ (n_cols : Z) : M loc :=
  if bool_decide (n_cols ∈ [1; 2; 3; 4; 6; 12]%Z) then
    alloc (OGrid n_cols [])
  else
    raise (ValueError "Number of columns needs to be in [1, 2, 3, 4, 6, 12]!").

(** [i % k] and [12 / k] on ints. *)
Definition py_rem (a b : Z) : result Z :=
  if (b =? 0)%Z then Raise ZeroDivisionError else Ok (a `mod` b)%Z.
Definition py_div (a b : Z) : result Z :=
  if (b =? 0)%Z then Raise ZeroDivisionError else Ok (a `div` b)%Z.

(** The body of the loop of [Grid._render], for the child [c] at index
    [i], with [n = len(self.children)] and [r] the list built so far. *)
Definition step (render : loc → Z → result string) (k n level : Z)
    (i : Z) (c : loc) (r : list string) : result (list string) :=
  m ← py_rem i k;
  let r := if (m =? 0)%Z then r ++ ["<div class='row'>"] else r in
  w ← py_div 12 k;
  html ← render c level;
  col ← py_mod "<div class='col-md-%d'>%s</div>" [FInt w; FStr html];
  let r := r ++ [col] in
  m' ← py_rem (i + 1) k;
  Ok (if (m' =? 0)%Z || (i + 1 =? n)%Z then r ++ ["</div>"] else r).

(** [for i, c in enumerate(children)] from index [i] on. *)
Fixpoint loop (render : loc → Z → result string) (k n level : Z)
    (i : Z) (cs : list loc) (r : list string) : result (list string) :=
  match cs with
  | [] => Ok r
  | c :: cs' =>
      r' ← step render k n level i c r;
      loop render k n level (i + 1) cs' r'
  end.

Definition _render (render : loc → Z → result string) (n_cols : Z)
    (children : list loc) (level : Z) : result string :=
  join <$> loop render n_cols (Z.of_nat (length children)) level 0
                children [].
End Grid.

(** Method dispatch on the class of [self].  [fuel] bounds the nesting of
    calls as the interpreter's recursion limit does. *)
Fixpoint _render `{Platform} (fuel : nat) (h : gmap loc robj) (self : loc)
    (level : Z) : result string :=
  match fuel with
  | O => Raise (RuntimeError "maximum recursion depth exceeded")
  | S fuel' =>
      match h !! self with
      | None => Raise (RuntimeError "no such object")
      | Some ORenderObject | Some (ONode _) => Raise NotImplementedError
      | Some (OReport _ _) =>
          (* Report._render takes three more arguments *)
          Raise (TypeError "_render() takes exactly 4 arguments (2 given)")
      | Some (OHeading title children) =>
          Heading._render (_render fuel' h) title children level
      | Some (OGrid n_cols children) =>
          Grid._render (_render fuel' h) n_cols children level
      | Some (OString text) => RString._render text level
      | Some (OP text) => P._render (_render fuel' h) text level
      | Some (ODict di) => Dict._render di level
      | Some (OArray a max_cols max_rows) =>
          Array._render a max_cols max_rows level
      | Some (ODFrame df) => DFrame._render df level
      | Some (OPlot fig) => Plot._render fig level
      | Some (OMPlot fig) => MPlot._render fig level
      end
  end.

(** ** Bootstrap templates *)

Definition _REPORT_TEMPLATE : string :=
  String.concat nl [
    "";
    "<!DOCTYPE html>";
    "<html lang=" +:+ dq +:+ "en" +:+ dq +:+ ">";
    "  <head>";
    "    <meta charset=" +:+ dq +:+ "utf-8" +:+ dq +:+ ">";
    "    <title>${title}</title>";
    "    ${header}";
    "    <style type=" +:+ dq +:+ "text/css" +:+ dq +:+ " media=" +:+ dq +:+ "screen" +:+ dq +:+ ">";
    "      body {font-family: 'Raleway', sans-serif}";
    "    </style>";
    "    <script>";
    "        $$(function() {";
    "            var navSelector = '#toc';";
    "            var $$myNav = $$(navSelector);";
    "            Toc.init($$myNav);";
    "            $$('body').scrollspy({";
    "                target: navSelector";
    "            });";
    "        });";
    "     </script>";
    "  </head>";
    "  <body data-spy=" +:+ dq +:+ "scroll" +:+ dq +:+ " data-target=" +:+ dq +:+ "#toc" +:+ dq +:+ ">";
    "    <div class=" +:+ dq +:+ "container" +:+ dq +:+ " >";
    "      <div  class=" +:+ dq +:+ "page-header" +:+ dq +:+ ">";
    "        <h1 data-toc-skip>${title}</h1>";
    "      </div>";
    "      <div class=" +:+ dq +:+ "row" +:+ dq +:+ ">";
    "         <div class=" +:+ dq +:+ "col-md-9" +:+ dq +:+ ">";
    "            ${content}";
    "         </div>";
    "         <div class=" +:+ dq +:+ "col-md-3 hidden-print" +:+ dq +:+ ">";
    "            <nav id=" +:+ dq +:+ "toc" +:+ dq +:+ " data-spy=" +:+ dq +:+ "affix" +:+ dq +:+ "></nav>";
    "         </div>";
    "      </div>";
    "      <hr>";
    "      <footer>Created with ${soft} (v${vers}) on ${time}</footer>";
    "    </div>";
    "  </body>";
    "</html>";
    ""
  ].

(** ** The clock, the file system, the browser *)

Definition pad2 (z : Z) : string :=
  if (z <? 10)%Z then "0" +:+ str_int z else str_int z.

(** [time.strftime(fmt, t)] for the directives the module uses; any other
    directive is copied. *)
Fixpoint strftime `{Platform} (fmt : string) (t : struct_time) : string :=
  match fmt with
  | EmptyString => EmptyString
  | String c fmt' =>
      if is_percent c then
        match fmt' with
        | EmptyString => String c EmptyString
        | String k rest =>
            (if is_char 89 k then str_int (tm_year t) (* %Y *)
             else if is_char 109 k then pad2 (tm_mon t) (* %m *)
             else if is_char 100 k then pad2 (tm_mday t) (* %d *)
             else if is_char 72 k then pad2 (tm_hour t) (* %H *)
             else if is_char 77 k then pad2 (tm_min t) (* %M *)
             else if is_char 83 k then pad2 (tm_sec t) (* %S *)
             else if is_char 99 k then strftime_c t (* %c *)
             else if is_percent k then String k EmptyString
             else String c (String k EmptyString))
            +:+ strftime rest t
        end
      else String c (strftime fmt' t)
  end.

(** [os.path.exists] *)
Definition os_path_exists (p : string) : M bool :=
  gets (λ w, bool_decide (p ∈ dirs w) || bool_decide (is_Some (files w !! p))).

(** [os.mkdir] and [os.makedirs] *)
Definition os_mkdir (p : string) : M unit :=
  modify (λ w, set_dirs ({[p]} ∪ dirs w) w).
Definition os_makedirs (p : string) : M unit := os_mkdir p.

(** [open(path, "w")]: the file exists and is empty from here on. *)
Definition open_w (path : string) : M unit :=
  modify (λ w, set_files (<[path:=EmptyString]> (files w)) w).

(** [fout.write(s)] on the file opened at [path]. *)
Definition fwrite (path s : string) : M unit :=
  modify (λ w,
    set_files (<[path:=default EmptyString (files w !! path) +:+ s]> (files w))
              w).

(** [webbrowser.open] *)
Definition webbrowser_open (url : string) : M unit :=
  modify (λ w, set_browser (url :: browser w) w).

(** ** Automatic path handling *)

(** [set_path]: without a [global] statement, [_PATH = path] binds a name
    that is local to the call. *)
Definition set_path (path : string) : M unit :=
  msg ← lift (py_mod "Setting default path to ''..." [FStr path]);
  (* _logger.info(msg) *)
  let _PATH := path in
  mret tt.

Definition get_path `{Platform} : M string :=
  gets (λ w,
    expanduser (match _PATH w with
                | None => default "~/lwreports/" (environ_get "LWREPORT_PATH")
                | Some p => p
                end)).

Definition open_path `{Platform} : M unit :=
  p ← get_path;
  url ← lift (py_mod "file://%s" [FStr (abspath p)]);
  webbrowser_open url.

(** ** Headers and external CSS/JS resources *)

Definition _CSS : list string := [
  "https://maxcdn.bootstrapcdn.com/bootstrap/3.3.7/css/bootstrap.min.css";
  "https://maxcdn.bootstrapcdn.com/bootstrap/3.3.7/css/bootstrap-theme.min.css";
  "https://cdn.rawgit.com/afeld/bootstrap-toc/v0.4.1/dist/bootstrap-toc.min.css"
].

Definition _JS : list string := [
  "https://ajax.googleapis.com/ajax/libs/jquery/1.12.4/jquery.min.js";
  "https://maxcdn.bootstrapcdn.com/bootstrap/3.3.7/js/bootstrap.min.js";
  "https://cdn.rawgit.com/afeld/bootstrap-toc/v0.4.1/dist/bootstrap-toc.min.js";
  "https://cdn.plot.ly/plotly-latest.min.js"
].

(** [urllib2.urlopen(url).read()] *)
Definition urlopen `{Platform} (url : string) : M string := λ w,
  match urlopen_read (requests w) url with
  | Some content => (Ok content, set_requests ((url, true) :: requests w) w)
  | None => (Raise (URLError url), set_requests ((url, false) :: requests w) w)
  end.

(** [_CACHE[url]] *)
Definition cache_get (url : string) : M string :=
  hit ← gets (λ w, _CACHE w !! url);
  match hit with
  | Some content => mret content
  | None => raise (KeyError url)
  end.

(** Cached retrieval of URLs in one session. *)
Definition _get_url `{Platform} (url : string) : M string :=
  hit ← gets (λ w, _CACHE w !! url);
  (if negb (bool_decide (is_Some hit)) then
     content ← urlopen url;
     modify (λ w, set_CACHE (<[url:=content]> (_CACHE w)) w)
   else mret tt);;
  cache_get url.

(** File name for a css/js resource. *)
Definition _res_filename `{Platform} (url ext : string) : M string :=
  content ← _get_url url;
  lift (py_mod ".%s%s.%s" [FStr ext; FStr (md5_hexdigest content); FStr ext]).

(** Download a single resource and save it to the local folder. *)
Definition _save_single `{Platform} (folder url ext : string) : M unit :=
  ex ← os_path_exists folder;
  (if negb ex then os_mkdir folder else mret tt);;
  name ← _res_filename url ext;
  let path := path_join folder name in
  content ← _get_url url;
  open_w path;;
  fwrite path content.

(** Download the resources and save them to the local folder. *)
Definition _save_res `{Platform} (folder : string) : M unit :=
  for_each _CSS (λ c _, _save_single folder c "css") tt;;
  for_each _JS (λ c _, _save_single folder c "js") tt.

Definition link_tag : string :=
  "<link rel=" +:+ dq +:+ "stylesheet" +:+ dq +:+ " href=" +:+ dq +:+ "%s"
  +:+ dq +:+ ">".
Definition style_tag : string :=
  "<style type=" +:+ dq +:+ "text/css" +:+ dq +:+ " media=" +:+ dq
  +:+ "screen" +:+ dq +:+ ">%s</style>".
Definition script_src_tag : string :=
  "<script src=" +:+ dq +:+ "%s" +:+ dq +:+ "></script>".
Definition script_tag : string := "<script>%s</script>".

(** One pass of a loop of [_make_header]: the three [if]s for the resource
    [c], with the tags for a reference and for inlined content. *)
Definition header_step `{Platform} (web local integrated : bool)
    (ext ref_tag inline_tag : string) (c : string) (res : list string)
    : M (list string) :=
  res ← (if local then
           name ← _res_filename c ext;
           tag ← lift (py_mod ref_tag [FStr name]);
           mret (res ++ [tag])
         else mret res);
  res ← (if web then
           tag ← lift (py_mod ref_tag [FStr c]);
           mret (res ++ [tag])
         else mret res);
  if integrated then
    content ← _get_url c;
    tag ← lift (py_mod inline_tag [FStr content]);
    mret (res ++ [tag])
  else mret res.

(** Automatically create the header. *)
Definition _make_header `{Platform} (web local integrated : bool) : M string :=
  res ← for_each _CSS
          (header_step web local integrated "css" link_tag style_tag) [];
  res ← for_each _JS
          (header_step web local integrated "js" script_src_tag script_tag) res;
  mret (join res).

(** ** The report *)

Module Report.
Definition __init__ (title : string) : M loc := alloc (OReport title []).

(** Render the report to a string.  The keyword arguments of
    [substitute] are evaluated in the order written: the children are
    rendered before the header is made. *)
Definition _render `{Platform} (self : loc) (integrated web local : bool)
    : M string :=
  o ← gets (λ w, heap w !! self);
  match o with
  | Some (OReport title children) =>
      h ← gets heap;
      content ← lift (Node._render_children (_render recursion_limit h)
                                            children 1);
      time ← gets (λ w, strftime "%c" (now w));
      header ← _make_header web local integrated;
      lift (substitute _REPORT_TEMPLATE
              [("title", title); ("content", content); ("soft", "lwreport");
               ("vers", "0.1"); ("time", time); ("header", header)])
  | _ => raise (AttributeError "_render")
  end.


(** [save(self, folder=None, filename=None, prefix=None, integrated=False,
    web=True, local=True, auto_open=True)] *)
Definition save `{Platform} (self : loc) (folder filename prefix : option string)
    (integrated web local auto_open : bool) : M unit :=
  o ← gets (λ w, heap w !! self);
  match o with
  | Some (OReport title _) =>
      (* Folder *)
      folder ← match folder with
               | None => get_path
               | Some f => mret f
               end;
      ex ← os_path_exists folder;
      (if negb ex then os_makedirs folder else mret tt);;
      (* Path *)
      filename ← match filename with
                 | None =>
                     lift (py_mod "%s.html"
                             [FStr (_re2_sub "_"
                                      (py_strip (_re1_sub "" title)))])
                 | Some f => mret f
                 end;
      prefix ← match prefix with
               | None => gets (λ w, strftime "%Y_%m_%d-%H_%M_%S-" (now w))
               | Some p => mret p
               end;
      let path := path_join folder (prefix +:+ filename) in
      (* Check integrations *)
      let web := if integrated then false else web in
      let local := if integrated then false else local in
      (if negb (web || integrated || local) then
         raise (ValueError
                  "One of `integrated`, `web` and `local` must be True.")
       else mret tt);;
      (* Create the report *)
      (if local then _save_res folder else mret tt);;
      open_w path;;
      doc ← _render self integrated web local;
      fwrite path doc;;
      (* Auto-open *)
      if auto_open then
        url ← lift (py_mod "file://%s" [FStr (abspath path)]);
        webbrowser_open url
      else mret tt
  | _ => raise (AttributeError "save")
  end.
End Report.

(** * Specification-side definitions *)

(** ** The grid layout, as the specification words it *)

Definition row_open : string := "<div class='row'>".
Definition row_close : string := "</div>".

(** A column wrapper of width [w] around a rendered child. *)
Definition column_wrapper (w : Z) (html : string) : string :=
  "<div class='col-md-" +:+ str_int w +:+ "'>" +:+ html +:+ "</div>".

(** What the child at index [i] of [n] contributes: a row wrapper opens
    before it iff [i mod k = 0]; it sits in a column wrapper of width
    [12 / k]; the row wrapper closes after it iff [(i + 1) mod k = 0] or [i]
    is the last index. *)
Definition grid_cell (k : Z) (n i : nat) (html : string) : list string :=
  (if bool_decide (Z.of_nat i `mod` k = 0)%Z then [row_open] else [])
  ++ [column_wrapper (12 `div` k) html]
  ++ (if bool_decide ((Z.of_nat (i + 1) `mod` k = 0)%Z ∨ i = n - 1)
      then [row_close] else []).

Definition grid_reference (k : Z) (htmls : list string) : list string :=
  concat (imap (grid_cell k (length htmls)) htmls).

(** How often a chunk occurs among the chunks of an output. *)
Definition count_chunk (s : string) (chunks : list string) : nat :=
  length (filter (λ x, x = s) chunks).

(** The column counts [Grid] accepts. *)
Definition valid_columns : list Z := [1; 2; 3; 4; 6; 12]%Z.

(** ** The type dispatcher, as the specification words it

    An ordered list of rules; the first rule that matches decides. *)












(** ** Sample platforms and worlds, for concrete runs *)

(** A platform without the optional libraries, with a network that answers
    every request. *)
Definition online : Platform := {|
  _NPY := false; _PDS := false; _PLY := false; _MPL := false;
  recursion_limit := 1000;
  float_str := λ _, "0.5";
  other_str := λ _, "<object>";
  urlopen_read := λ _ url, Some ("/* " +:+ url +:+ " */");
  md5_hexdigest := λ s, str_int (Z.of_nat (String.length s));
  environ_get := λ _, None;
  expanduser := λ p, p;
  abspath := λ p, p;
  strftime_c := λ _, "Fri Jan  1 00:00:00 2016";
  array_to_html := λ _ _ _, "<table></table>";
  array_str := λ _, "[]";
  frame_to_html := λ _, Ok "<table></table>";
  plotly_plot := λ _, Ok "<div></div>";
  plotly_plot_mpl := λ _, Ok "<div></div>";
|}.


(** The world right after the import of the module, on an empty disk. *)
Definition at_import : World :=
  mk_world ∅ None ∅ ∅ ∅ [] [] (mk_time 2016 1 1 0 0 0).

(** The world after [Report(title)]: the report is object 1. *)
Definition with_report (title : string) : World :=
  (Report.__init__ title at_import).2.

(** ** Frames: what a call may change *)

(** [preserves R m]: the world after [m], returned or raised, is related by
    [R] to the world before. *)
Definition preserves {A} (R : relation World) (m : M A) : Prop :=
  ∀ w, R w (m w).2.

(** The cache only grows: no entry is evicted or overwritten. *)
Definition cache_kept (w w' : World) : Prop := _CACHE w ⊆ _CACHE w'.


(** The name [_res_filename] gives to a resource with this content. *)
Definition content_name `{Platform} (ext content : string) : string :=
  "." +:+ ext +:+ md5_hexdigest content +:+ "." +:+ ext.


(** Objects, [_PATH], the browser and the clock are as before; the cache
    and the request log have only grown; directories were only added; and
    files differ at most at the paths in [P]. *)
Definition frame (P : string → Prop) (w w' : World) : Prop :=
  heap w' = heap w ∧ _PATH w' = _PATH w ∧ browser w' = browser w
  ∧ now w' = now w ∧ _CACHE w ⊆ _CACHE w'
  ∧ requests w `suffix_of` requests w' ∧ dirs w ⊆ dirs w'
  ∧ ∀ p, ¬ P p → files w' !! p = files w !! p.


(** ** The steps of [save] *)

(** What [get_path] returns. *)
Definition default_folder `{Platform} (w : World) : string :=
  expanduser (match _PATH w with
              | None => default "~/lwreports/" (environ_get "LWREPORT_PATH")
              | Some p => p
              end).

(** The slug of a title, as [save] computes it. *)
Definition slug (title : string) : string :=
  _re2_sub "_" (py_strip (_re1_sub "" title)).

Definition timestamp `{Platform} (t : struct_time) : string :=
  strftime "%Y_%m_%d-%H_%M_%S-" t.

(** The folder and the path [save] writes to. *)
Definition target_folder `{Platform} (folder : option string) (w : World)
    : string :=
  default (default_folder w) folder.

Definition target_path `{Platform} (title : string)
    (folder filename prefix : option string) (w : World) : string :=
  path_join (target_folder folder w)
            (default (timestamp (now w)) prefix
             +:+ default (slug title +:+ ".html") filename).

(** The world once the folder is there. *)
Definition made_folder (fo : string) (w : World) : World :=
  if bool_decide (fo ∈ dirs w) || bool_decide (is_Some (files w !! fo))
  then w else set_dirs ({[fo]} ∪ dirs w) w.

(** The world once the output file is open. *)
Definition opened (path : string) (w : World) : World :=
  set_files (<[path:=""]> (files w)) w.

(** The modes in effect: [integrated] switches the other two off. *)
Definition effective (integrated mode : bool) : bool :=
  if integrated then false else mode.

Definition mode_error : exn :=
  ValueError "One of `integrated`, `web` and `local` must be True.".

(** The step after the mode check: the resources are put in the folder, in
    local mode. *)
Definition materialize `{Platform} (fo : string) (local : bool) : M unit :=
  if local then _save_res fo else mret tt.

(** The last step, after the document was written. *)
Definition auto_opening `{Platform} (path : string) (auto_open : bool)
    : M unit :=
  if auto_open then
    url ← lift (py_mod "file://%s" [FStr (abspath path)]);
    webbrowser_open url
  else mret tt.


(** ** The slug, as the specification words it

    On the characters of the title: drop every character that is not a word
    character, white space or a hyphen; drop the white space at both ends;
    replace every run of white space by one underscore. *)

Definition kept (c : ascii) : bool := is_word c || is_space c || is_hyphen c.

Fixpoint drop_spaces (l : list ascii) : list ascii :=
  match l with
  | c :: l' => if is_space c then drop_spaces l' else l
  | [] => []
  end.

Definition trimmed (l : list ascii) : list ascii :=
  rev (drop_spaces (rev (drop_spaces l))).

(** Of every run of white space, the last character only. *)
Fixpoint squeezed (l : list ascii) : list ascii :=
  match l with
  | [] => []
  | c :: l' =>
      match l' with
      | d :: _ => if is_space c && is_space d then squeezed l'
                  else c :: squeezed l'
      | [] => [c]
      end
  end.

Definition underscored (c : ascii) : ascii :=
  if is_space c then "_"%char else c.

Definition slug_reference (title : string) : string :=
  string_of_list_ascii
    (map underscored
       (squeezed (trimmed (List.filter kept (list_ascii_of_string title))))).

(** The slug without the trimming step. *)
Definition slug_untrimmed (title : string) : string :=
  string_of_list_ascii
    (map underscored
       (squeezed (List.filter kept (list_ascii_of_string title)))).

Definition starts_with_space (l : list ascii) : bool :=
  match l with
  | c :: _ => is_space c
  | [] => false
  end.

(** Letters, digits and hyphens: what a slug takes over from the title. *)
Definition is_alnum_or_hyphen (c : ascii) : bool :=
  ascii_in 48 57 c || ascii_in 65 90 c || ascii_in 97 122 c || is_hyphen c.

(** ** The time stamp, digit by digit *)

Definition digit (n : Z) : ascii := ascii_of_nat (48 + Z.to_nat n).

Definition two_digits (z : Z) : string :=
  String (digit (z `div` 10)) (String (digit (z `mod` 10)) "").

Definition four_digits (z : Z) : string :=
  two_digits (z `div` 100) +:+ two_digits (z `mod` 100).

(** YYYY_MM_DD-HH_MM_SS- *)
Definition timestamp_form (t : struct_time) : string :=
  four_digits (tm_year t) +:+ "_" +:+ two_digits (tm_mon t) +:+ "_"
  +:+ two_digits (tm_mday t) +:+ "-" +:+ two_digits (tm_hour t) +:+ "_"
  +:+ two_digits (tm_min t) +:+ "_" +:+ two_digits (tm_sec t) +:+ "-".

(** A broken-down time with a year of four digits. *)
Definition valid_time (t : struct_time) : Prop :=
  (1000 ≤ tm_year t ≤ 9999 ∧ 1 ≤ tm_mon t ≤ 12 ∧ 1 ≤ tm_mday t ≤ 31
   ∧ 0 ≤ tm_hour t ≤ 23 ∧ 0 ≤ tm_min t ≤ 59 ∧ 0 ≤ tm_sec t ≤ 61)%Z.

(** The order of broken-down times, field by field. *)
Definition time_compare (t1 t2 : struct_time) : comparison :=
  match (tm_year t1 ?= tm_year t2)%Z with
  | Eq =>
    match (tm_mon t1 ?= tm_mon t2)%Z with
    | Eq =>
      match (tm_mday t1 ?= tm_mday t2)%Z with
      | Eq =>
        match (tm_hour t1 ?= tm_hour t2)%Z with
        | Eq =>
          match (tm_min t1 ?= tm_min t2)%Z with
          | Eq => (tm_sec t1 ?= tm_sec t2)%Z
          | r => r
          end
        | r => r
        end
      | r => r
      end
    | r => r
    end
  | r => r
  end.

(** * Properties *)

(** ** Running computations *)

Lemma run_bind {A B} (m : M A) (f : A → M B) (w : World) :
  (m ≫= f) w =
  match m w with
  | (Ok a, w') => f a w'
  | (Raise e, w') => (Raise e, w')
  end.
Proof. reflexivity. Qed.

Lemma run_bind_Ok {A B} (m : M A) (f : A → M B) w a w' :
  m w = (Ok a, w') → (m ≫= f) w = f a w'.
Proof. intros E. by rewrite run_bind, E. Qed.

Lemma run_bind_Raise {A B} (m : M A) (f : A → M B) w e w' :
  m w = (Raise e, w') → (m ≫= f) w = (Raise e, w').
Proof. intros E. by rewrite run_bind, E. Qed.

Lemma run_bind_inv_Ok {A B} (m : M A) (f : A → M B) w b w'' :
  (m ≫= f) w = (Ok b, w'') →
  ∃ a w', m w = (Ok a, w') ∧ f a w' = (Ok b, w'').
Proof.
  rewrite run_bind. destruct (m w) as [[a|e] w'] eqn:E; [eauto | discriminate].
Qed.

Lemma run_bind_inv_Raise {A B} (m : M A) (f : A → M B) w e w'' :
  (m ≫= f) w = (Raise e, w'') →
  m w = (Raise e, w'') ∨ ∃ a w', m w = (Ok a, w') ∧ f a w' = (Raise e, w'').
Proof.
  rewrite run_bind. destruct (m w) as [[a|e'] w'] eqn:E; [eauto | ].
  intros [= -> ->]. by left.
Qed.

(** ** What a computation leaves alone *)

Section preserves.
Context (R : relation World) `{!PreOrder R}.







End preserves.

Lemma preserves_modify (R : relation World) (f : World → World) :
  (∀ w, R w (f w)) → preserves R (modify f).
Proof. intros Hf w. apply Hf. Qed.

(** Unfold the plumbing of [M] in the goal. *)
Ltac run := cbv [mbind M_bind mret M_ret gets modify lift raise]; simpl.

(** ** Strings *)

Lemma append_nil_r (s : string) : s +:+ "" = s.
Proof.
  induction s as [|c s IH]; [done|].
  change (String c (s +:+ "") = String c s). by f_equal.
Qed.

Lemma append_assoc (s1 s2 s3 : string) :
  (s1 +:+ s2) +:+ s3 = s1 +:+ (s2 +:+ s3).
Proof.
  induction s1 as [|c s1 IH]; [done|].
  change (String c ((s1 +:+ s2) +:+ s3) = String c (s1 +:+ (s2 +:+ s3))).
  by f_equal.
Qed.

(** ** The default path *)

(** For a [str] argument the logging line of [set_path] raises: its format
    has no conversion for the argument. *)
Lemma set_path_raises path w :
  set_path path w =
  (Raise (TypeError "not all arguments converted during string formatting"), w).
Proof. reflexivity. Qed.

(** C8. [set_path p] followed by [get_path] gives what [get_path] alone
    gives: the setter never changes the module-level [_PATH] (nor anything
    else of the world), so the default directory that [save] reads through
    [get_path] is the one from before the call. *)
Theorem set_path_leaves_default `{Platform} (p : string) (w : World) :
  let w' := (set_path p w).2 in
  w' = w ∧ _PATH w' = _PATH w ∧ get_path w' = get_path w ∧
  ∀ self filename prefix integrated web local auto_open,
    Report.save self None filename prefix integrated web local auto_open w' =
    Report.save self None filename prefix integrated web local auto_open w.
Proof.
  rewrite set_path_raises. simpl. done.
Qed.

(** ** The grid *)

Lemma valid_columns_cases (k : Z) :
  k ∈ valid_columns ↔ (k = 1 ∨ k = 2 ∨ k = 3 ∨ k = 4 ∨ k = 6 ∨ k = 12)%Z.
Proof. unfold valid_columns. rewrite !elem_of_cons, elem_of_nil. tauto. Qed.

Lemma valid_columns_pos (k : Z) : k ∈ valid_columns → (0 < k)%Z.
Proof. rewrite valid_columns_cases. lia. Qed.

Lemma valid_columns_divide (k : Z) :
  k ∈ valid_columns → (12 `div` k * k = 12)%Z.
Proof.
  rewrite valid_columns_cases.
  intros [->|[->|[->|[->|[->| ->]]]]]; reflexivity.
Qed.

(** One pass of the loop, for a column count other than zero. *)
Lemma Grid_step_eq render (k n level i : Z) c r :
  k ≠ 0%Z →
  Grid.step render k n level i c r =
  html ← render c level;
  Ok (r ++ (if (i `mod` k =? 0)%Z then [row_open] else [])
        ++ [column_wrapper (12 `div` k) html]
        ++ (if ((i + 1) `mod` k =? 0)%Z || (i + 1 =? n)%Z
            then [row_close] else [])).
Proof.
  intros Hk. unfold Grid.step, Grid.py_rem, Grid.py_div.
  destruct (Z.eqb_spec k 0) as [|_]; [done|]. simpl.
  destruct (render c level) as [html|e]; simpl; [|done].
  destruct (i `mod` k =? 0)%Z,
    (((i + 1) `mod` k =? 0)%Z || (i + 1 =? n)%Z);
    simpl; by rewrite <- ?(assoc_L (++)).
Qed.

(** C6. A column count outside [1, 2, 3, 4, 6, 12] makes the constructor
    raise [ValueError] and leaves the world as it was; a count inside makes it
    return a new grid without children, and every column this grid renders
    has width [12 / n_cols], which divides 12 exactly. *)
Theorem Grid_init_columns (n_cols : Z) (w : World) :
  (n_cols ∉ valid_columns →
   Grid.__init__ n_cols w =
   (Raise (ValueError "Number of columns needs to be in [1, 2, 3, 4, 6, 12]!"),
    w))
  ∧ (n_cols ∈ valid_columns →
     ∃ self,
       Grid.__init__ n_cols w =
       (Ok self, set_heap (<[self:=OGrid n_cols []]> (heap w)) w)
       ∧ heap w !! self = None
       ∧ (12 `div` n_cols * n_cols = 12)%Z
       ∧ ∀ render n level i c r html,
           render c level = Ok html →
           ∃ before after,
             Grid.step render n_cols n level i c r =
             Ok (r ++ before ++ [column_wrapper (12 `div` n_cols) html]
                   ++ after)).
Proof.
  split; intros Hk; unfold Grid.__init__; fold valid_columns.
  - by rewrite bool_decide_eq_false_2.
  - rewrite bool_decide_eq_true_2 by done.
    exists (fresh (dom (heap w))). split_and!.
    + reflexivity.
    + apply not_elem_of_dom, is_fresh.
    + by apply valid_columns_divide.
    + intros render n level i c r html Hc.
      rewrite Grid_step_eq by (apply valid_columns_pos in Hk; lia).
      rewrite Hc. simpl. eauto.
Qed.
Lemma mapM_result_cons {A B} (f : A → result B) x xs :
  mapM f (x :: xs) = y ← f x; ys ← mapM f xs; Ok (y :: ys).
Proof. reflexivity. Qed.

Lemma mapM_result_length {A B} (f : A → result B) xs ys :
  mapM f xs = Ok ys → length ys = length xs.
Proof.
  revert ys. induction xs as [|x xs IH]; intros ys; simpl.
  - by intros [= <-].
  - destruct (f x) as [y|e]; simpl; [|done].
    destruct (mapM f xs) as [ys'|e]; simpl; [|done].
    intros [= <-]. simpl. f_equal. by apply IH.
Qed.

(** The tests of the loop, on machine integers, are those of the
    reference, on indices. *)
Lemma grid_cell_tests (k : Z) (n i : nat) html :
  i < n →
  grid_cell k n i html =
  (if (Z.of_nat i `mod` k =? 0)%Z then [row_open] else [])
  ++ [column_wrapper (12 `div` k) html]
  ++ (if ((Z.of_nat i + 1) `mod` k =? 0)%Z || (Z.of_nat i + 1 =? Z.of_nat n)%Z
      then [row_close] else []).
Proof.
  intros Hi. unfold grid_cell. f_equal; [|f_equal].
  - destruct (Z.eqb_spec (Z.of_nat i `mod` k) 0);
      [by rewrite bool_decide_eq_true_2 | by rewrite bool_decide_eq_false_2].
  - replace (Z.of_nat (i + 1)) with (Z.of_nat i + 1)%Z by lia.
    destruct (Z.eqb_spec ((Z.of_nat i + 1) `mod` k) 0) as [E|E]; simpl.
    + rewrite bool_decide_eq_true_2; [done | by left].
    + destruct (Z.eqb_spec (Z.of_nat i + 1) (Z.of_nat n)) as [E'|E'].
      * rewrite bool_decide_eq_true_2; [done | right; lia].
      * rewrite bool_decide_eq_false_2; [done | ]. intros [?|?]; [done | lia].
Qed.

(** The loop from index [i] on, against the cells of the reference. *)
Lemma Grid_loop_cells render (k : Z) (n : nat) level :
  k ≠ 0%Z →
  ∀ cs (i : nat) r,
    i + length cs = n →
    Grid.loop render k (Z.of_nat n) level (Z.of_nat i) cs r =
    (λ htmls, r ++ concat (imap (λ j, grid_cell k n (i + j)) htmls))
      <$> mapM (λ c, render c level) cs.
Proof.
  intros Hk cs. induction cs as [|c cs IH]; intros i r Hn.
  - simpl. by rewrite app_nil_r.
  - cbn [Grid.loop]. rewrite Grid_step_eq, mapM_result_cons by done.
    destruct (render c level) as [html|e]; [|done].
    cbn [mbind result_bind].
    replace (Z.of_nat i + 1)%Z with (Z.of_nat (S i)) by lia.
    rewrite IH by (simpl in Hn; lia).
    destruct (mapM _ cs) as [htmls|e]; [|done].
    cbn [mbind result_bind fmap result_fmap imap concat]. f_equal.
    rewrite Nat.add_0_r, grid_cell_tests by (simpl in Hn; lia).
    replace (Z.of_nat (S i)) with (Z.of_nat i + 1)%Z by lia.
    rewrite <- !(assoc_L (++)). do 5 f_equal.
    apply imap_ext. intros j html' _. simpl. f_equal. lia.
Qed.

Lemma Grid_loop_reference render (k : Z) children level :
  k ≠ 0%Z →
  Grid.loop render k (Z.of_nat (length children)) level 0 children [] =
  grid_reference k <$> mapM (λ c, render c level) children.
Proof.
  intros Hk. change 0%Z with (Z.of_nat 0).
  rewrite (Grid_loop_cells render k (length children) level Hk children 0 [])
    by done.
  destruct (mapM _ children) as [htmls|e] eqn:E; [|done].
  simpl. unfold grid_reference.
  by rewrite (mapM_result_length _ _ _ E).
Qed.

(** A column wrapper is neither of the row markers. *)
Lemma column_wrapper_not_marker w html :
  column_wrapper w html ≠ row_open ∧ column_wrapper w html ≠ row_close.
Proof. split; discriminate. Qed.

Lemma count_chunk_app s l1 l2 :
  count_chunk s (l1 ++ l2) = count_chunk s l1 + count_chunk s l2.
Proof. unfold count_chunk. by rewrite filter_app, length_app. Qed.

Lemma count_chunk_cell_open k n i html :
  count_chunk row_open (grid_cell k n i html) =
  if bool_decide (Z.of_nat i `mod` k = 0)%Z then 1 else 0.
Proof.
  unfold grid_cell. rewrite !count_chunk_app.
  destruct (column_wrapper_not_marker (12 `div` k) html) as [Ho _].
  unfold count_chunk at 2. rewrite filter_cons_False, filter_nil by done.
  repeat case_bool_decide; reflexivity.
Qed.

Lemma count_chunk_cell_close k n i html :
  count_chunk row_close (grid_cell k n i html) =
  if bool_decide ((Z.of_nat (i + 1) `mod` k = 0)%Z ∨ i = n - 1) then 1 else 0.
Proof.
  unfold grid_cell. rewrite !count_chunk_app.
  destruct (column_wrapper_not_marker (12 `div` k) html) as [_ Hc].
  unfold count_chunk at 2. rewrite filter_cons_False, filter_nil by done.
  repeat case_bool_decide; reflexivity.
Qed.

(** From index [i] on, the rows closed are the rows opened, and one more
    when [i] falls inside a row. *)
Lemma grid_cells_balance (k : Z) (n : nat) htmls :
  ∀ i, i + length htmls = n →
    count_chunk row_close (concat (imap (λ j, grid_cell k n (i + j)) htmls)) =
    count_chunk row_open (concat (imap (λ j, grid_cell k n (i + j)) htmls))
    + (if bool_decide ((Z.of_nat i `mod` k ≠ 0)%Z ∧ i < n) then 1 else 0).
Proof.
  induction htmls as [|html htmls IH]; intros i Hn.
  - simpl in *. rewrite bool_decide_eq_false_2; [done | lia].
  - cbn [imap concat]. rewrite !count_chunk_app.
    rewrite (imap_ext _ (λ j, grid_cell k n (S i + j)))
      by (intros; simpl; f_equal; lia).
    rewrite IH by (simpl in Hn; lia).
    rewrite Nat.add_0_r, count_chunk_cell_open, count_chunk_cell_close.
    simpl in Hn. replace (i + 1) with (S i) by lia.
    repeat case_bool_decide; lia.
Qed.

Lemma grid_reference_balanced (k : Z) htmls :
  count_chunk row_open (grid_reference k htmls) =
  count_chunk row_close (grid_reference k htmls).
Proof.
  unfold grid_reference.
  change (grid_cell k (length htmls))
    with (λ j, grid_cell k (length htmls) (0 + j)).
  rewrite (grid_cells_balance k (length htmls) htmls 0 eq_refl).
  rewrite bool_decide_eq_false_2; [lia | ].
  intros [Hm _]. apply Hm. apply Zmod_0_l.
Qed.

Lemma Grid_render_dispatch `{Platform} fuel h self k children level :
  h !! self = Some (OGrid k children) →
  _render (S fuel) h self level =
  Grid._render (_render fuel h) k children level.
Proof. intros E. simpl. by rewrite E. Qed.

(** C4. For a valid column count [k], [Grid._render] is the reference
    algorithm: child [i] is preceded by an opening row marker iff
    [i mod k = 0], sits in a column wrapper of width [12 / k], and is
    followed by a closing row marker iff [(i + 1) mod k = 0] or [i] is the
    last index; a child that raises makes the grid raise the same.  So does
    the method call on a grid object.  The chunks the grid emits hold as
    many opening as closing row markers, and a grid without children renders
    as the empty string. *)
Theorem Grid_render_reference `{Platform} (render : loc → Z → result string)
    (k : Z) (children : list loc) (level : Z) :
  k ∈ valid_columns →
  Grid.loop render k (Z.of_nat (length children)) level 0 children [] =
    grid_reference k <$> mapM (λ c, render c level) children
  ∧ Grid._render render k children level =
    (λ htmls, join (grid_reference k htmls))
      <$> mapM (λ c, render c level) children
  ∧ (∀ fuel h self,
       h !! self = Some (OGrid k children) →
       _render (S fuel) h self level =
       (λ htmls, join (grid_reference k htmls))
         <$> mapM (λ c, _render fuel h c level) children)
  ∧ (∀ chunks,
       Grid.loop render k (Z.of_nat (length children)) level 0 children [] =
         Ok chunks →
       count_chunk row_open chunks = count_chunk row_close chunks)
  ∧ Grid._render render k [] level = Ok ""
  ∧ (∀ fuel h self,
       h !! self = Some (OGrid k []) → _render (S fuel) h self level = Ok "").
Proof.
  intros Hk. assert (k ≠ 0%Z) as Hk0 by (apply valid_columns_pos in Hk; lia).
  assert (∀ r, Grid._render r k children level =
               (λ htmls, join (grid_reference k htmls))
                 <$> mapM (λ c, r c level) children) as Href.
  { intros r. unfold Grid._render. rewrite Grid_loop_reference by done.
    by destruct (mapM _ children). }
  split_and!.
  - by apply Grid_loop_reference.
  - apply Href.
  - intros fuel h self Hself.
    rewrite (Grid_render_dispatch _ _ _ _ _ _ Hself). apply Href.
  - intros chunks. rewrite Grid_loop_reference by done.
    destruct (mapM _ children) as [htmls|e]; [|done].
    intros [= <-]. apply grid_reference_balanced.
  - reflexivity.
  - intros fuel h self Hself.
    by rewrite (Grid_render_dispatch _ _ _ _ _ _ Hself).
Qed.

Lemma Grid_render_reference_witness :
  (4 ∈ valid_columns)%Z
  ∧ Grid._render (λ c _, Ok (str_int (Z.pos c))) 4
                 [1; 2; 3; 4; 5; 6; 7; 8; 9]%positive 1 =
    Ok (join (grid_reference 4 ["1"; "2"; "3"; "4"; "5"; "6"; "7"; "8"; "9"])).
Proof.
  split.
  - apply valid_columns_cases. lia.
  - refine (proj1 (proj2 (Grid_render_reference (H:=online) _ 4 _ 1 _))).
    apply valid_columns_cases. lia.
Defined.

(** Four columns and nine children: three rows, the last of one column. *)
Example Grid_four_columns_nine_children :
  Grid._render (λ c _, Ok (str_int (Z.pos c))) 4
               [1; 2; 3; 4; 5; 6; 7; 8; 9]%positive 1 =
  Ok ("<div class='row'>"
        +:+ "<div class='col-md-3'>1</div><div class='col-md-3'>2</div>"
        +:+ "<div class='col-md-3'>3</div><div class='col-md-3'>4</div>"
        +:+ "</div>"
      +:+ "<div class='row'>"
        +:+ "<div class='col-md-3'>5</div><div class='col-md-3'>6</div>"
        +:+ "<div class='col-md-3'>7</div><div class='col-md-3'>8</div>"
        +:+ "</div>"
      +:+ "<div class='row'>"
        +:+ "<div class='col-md-3'>9</div>"
        +:+ "</div>").
Proof. vm_compute. reflexivity. Qed.

Lemma Grid_init_columns_witness :
  ((5 ∉ valid_columns)%Z ∧ is_Raise (Grid.__init__ 5 at_import).1)
  ∧ ((4 ∈ valid_columns)%Z ∧ is_Ok (Grid.__init__ 4 at_import).1).
Proof.
  split; split.
  - rewrite valid_columns_cases. lia.
  - rewrite (proj1 (Grid_init_columns 5 at_import)); [by eexists | ].
    rewrite valid_columns_cases. lia.
  - apply valid_columns_cases. lia.
  - destruct (proj2 (Grid_init_columns 4 at_import)) as (self & -> & _).
    + apply valid_columns_cases. lia.
    + by eexists.
Defined.

(** ** The dispatch function and [Node.add] *)

Lemma alloc_run (o : robj) w :
  alloc o w =
  (Ok (fresh (dom (heap w))),
   set_heap (<[fresh (dom (heap w)):=o]> (heap w)) w).
Proof. reflexivity. Qed.

Lemma alloc_fresh (w : World) : heap w !! fresh (dom (heap w)) = None.
Proof. apply not_elem_of_dom, is_fresh. Qed.

(** The format of the error message always converts. *)
Lemma unsupported_message obj :
  py_mod "Type '%s' not supported for rendering!" [FStr (py_type obj)] =
  Ok ("Type '" +:+ py_type obj +:+ "' not supported for rendering!").
Proof. reflexivity. Qed.


(** When [_parse_obj] returns, it returns its argument, or a new object. *)
Lemma parse_obj_Ok_inv `{Platform} obj w c w' :
  _parse_obj obj w = (Ok c, w') →
  (obj = VObj c ∧ w' = w)
  ∨ (as_RenderObject obj = None ∧ heap w !! c = None
     ∧ ∃ o, w' = set_heap (<[c:=o]> (heap w)) w).
Proof.
  unfold _parse_obj.
  destruct obj; simpl;
    try (intros [= <- <-]; by left);
    destruct _NPY, _PDS, _PLY, _MPL; simpl;
    try discriminate;
    try (intros [= <- <-]; right; split_and!;
         [done | apply alloc_fresh | by eexists]).
  all: rewrite run_bind; simpl; destruct (forallb _ cps); simpl;
    [|discriminate].
  all: intros [= <- <-]; right; split_and!;
    [done | apply alloc_fresh | by eexists].
Qed.

(** When [_parse_obj] raises, it has changed nothing. *)
Lemma parse_obj_Raise_inv `{Platform} obj w e w' :
  _parse_obj obj w = (Raise e, w') → w' = w.
Proof.
  unfold _parse_obj.
  destruct obj; simpl;
    destruct _NPY, _PDS, _PLY, _MPL; simpl;
    try discriminate; try by intros [= <- <-].
  all: rewrite run_bind; simpl; destruct (forallb _ cps); simpl;
    [discriminate | by intros [= <- <-]].
Qed.




(** A [long] is not an [int]: no rule matches it. *)
Example parse_obj_long `{Platform} z w :
  _parse_obj (VLong z) w =
  (Raise (ValueError "Type '<type 'long'>' not supported for rendering!"), w).
Proof. unfold _parse_obj. simpl. by destruct _NPY, _PDS, _PLY, _MPL. Qed.

(** [_parse_obj] keeps every live object as it is. *)
Lemma parse_obj_keeps `{Platform} obj w c w' l o :
  _parse_obj obj w = (Ok c, w') → heap w !! l = Some o → heap w' !! l = Some o.
Proof.
  intros Hp Hl.
  apply parse_obj_Ok_inv in Hp as [[_ ->]|(_ & Hc & o' & ->)]; [done|].
  simpl. rewrite lookup_insert_ne; [done | congruence].
Qed.

Lemma children_of_append c o ch :
  children_of o = Some ch → children_of (append_child c o) = Some (ch ++ [c]).
Proof. destruct o; simpl; try discriminate; by intros [= ->]. Qed.

(** [add] on a receiver with children: dispatch, append, return [child]. *)
Lemma Node_add_run `{Platform} self child w o ch :
  heap w !! self = Some o →
  children_of o = Some ch →
  Node.add self child w =
  (c ← _parse_obj child;
   modify (λ w, set_heap (alter (append_child c) self (heap w)) w);;
   mret child) w.
Proof.
  intros Hself Hch. unfold Node.add. rewrite run_bind. unfold gets. simpl.
  by rewrite Hself; simpl; rewrite Hch.
Qed.

Lemma Node_add_Ok `{Platform} self child w o ch c w1 :
  heap w !! self = Some o →
  children_of o = Some ch →
  _parse_obj child w = (Ok c, w1) →
  Node.add self child w =
    (Ok child, set_heap (alter (append_child c) self (heap w1)) w1)
  ∧ (alter (append_child c) self (heap w1) !! self ≫= children_of)
    = Some (ch ++ [c]).
Proof.
  intros Hself Hch Hp.
  rewrite (Node_add_run _ _ _ _ _ Hself Hch), (run_bind_Ok _ _ _ _ _ Hp).
  split; [reflexivity|].
  rewrite lookup_alter_eq, (parse_obj_keeps _ _ _ _ _ _ Hp Hself). simpl.
  by apply children_of_append.
Qed.

(** C3, as the code has it.  For a receiver with children, [add(child)]
    sends [child] through the dispatcher and appends the node it gives to
    the receiver's children; what [add] returns is [child] itself.  When
    [child] is a render object, that is the appended node; otherwise the
    appended node is a new object, and the value returned is not a node.
    When the dispatcher raises, [add] raises the same and changes
    nothing. *)
Theorem Node_add_appends `{Platform} (self : loc) (child : pyval) (w : World)
    (o : robj) (ch : list loc) :
  heap w !! self = Some o →
  children_of o = Some ch →
  (∀ c w1, _parse_obj child w = (Ok c, w1) →
     ∃ w2,
       Node.add self child w = (Ok child, w2)
       ∧ heap w2 = alter (append_child c) self (heap w1)
       ∧ (heap w2 !! self ≫= children_of) = Some (ch ++ [c])
       ∧ (∀ l, child = VObj l → c = l ∧ w1 = w)
       ∧ (as_RenderObject child = None →
          heap w !! c = None ∧ is_Some (heap w2 !! c)))
  ∧ (∀ e w1, _parse_obj child w = (Raise e, w1) →
       Node.add self child w = (Raise e, w)).
Proof.
  intros Hself Hch. split.
  - intros c w1 Hp.
    destruct (Node_add_Ok _ _ _ _ _ _ _ Hself Hch Hp) as [Hadd Hchildren].
    eexists. split; [exact Hadd|]. simpl. split_and!.
    + done.
    + exact Hchildren.
    + intros l ->. by injection Hp as -> ->.
    + intros Hn.
      apply parse_obj_Ok_inv in Hp as [[-> _]|(_ & Hc & o' & ->)];
        [done|]. split; [done|]. simpl.
      rewrite lookup_alter_ne by congruence.
      rewrite lookup_insert_eq. by eexists.
  - intros e w1 Hp.
    rewrite (Node_add_run _ _ _ _ _ Hself Hch), (run_bind_Raise _ _ _ _ _ Hp).
    by rewrite (parse_obj_Raise_inv _ _ _ _ Hp).
Qed.

Lemma Node_add_appends_witness :
  heap (with_report "r") !! 1%positive = Some (OReport "r" [])
  ∧ children_of (OReport "r" []) = Some []
  ∧ (Node.add (H:=online) 1 (VStr "x") (with_report "r")).1 = Ok (VStr "x")
  ∧ (Node.add (H:=online) 1 (VObj 1) (with_report "r")).1 = Ok (VObj 1).
Proof.
  assert (heap (with_report "r") !! 1%positive = Some (OReport "r" []))
    as Hself by reflexivity.
  split_and!; [done | done | | ].
  - destruct (proj1 (Node_add_appends (H:=online) 1 (VStr "x") _ _ _
                       Hself eq_refl) 2%positive _ eq_refl)
      as (w2 & -> & _). reflexivity.
  - destruct (proj1 (Node_add_appends (H:=online) 1 (VObj 1) _ _ _
                       Hself eq_refl) 1%positive _ eq_refl)
      as (w2 & -> & _). reflexivity.
Defined.

(** C3, as stated, fails for a string: the node that [add] creates and
    appends is object 2, a [String]; what [add] returns is the string. *)
Lemma Node_add_returns_its_argument :
  (_parse_obj (H:=online) (VStr "x") (with_report "r")).1 = Ok 2%positive
  ∧ heap (Node.add (H:=online) 1 (VStr "x") (with_report "r")).2 !! 1%positive
    = Some (OReport "r" [2%positive])
  ∧ heap (Node.add (H:=online) 1 (VStr "x") (with_report "r")).2 !! 2%positive
    = Some (OString "x")
  ∧ (Node.add (H:=online) 1 (VStr "x") (with_report "r")).1 = Ok (VStr "x")
  ∧ (Node.add (H:=online) 1 (VStr "x") (with_report "r")).1
    ≠ Ok (VObj 2%positive).
Proof. split_and!; [reflexivity.. | discriminate]. Qed.

(** Building goes on under the node that [add] was given and returned: a
    later [add] on it is seen from the parent, which holds the same
    object. *)
Lemma Node_add_alias `{Platform} (self l : loc) (v : pyval) (w : World)
    (o ol : robj) (ch chl : list loc) w1 c w2 :
  self ≠ l →
  heap w !! self = Some o → children_of o = Some ch →
  heap w !! l = Some ol → children_of ol = Some chl →
  Node.add self (VObj l) w = (Ok (VObj l), w1) →
  _parse_obj v w1 = (Ok c, w2) →
  ∃ w3, Node.add l v w1 = (Ok v, w3)
        ∧ (heap w3 !! self ≫= children_of) = Some (ch ++ [l])
        ∧ (heap w3 !! l ≫= children_of) = Some (chl ++ [c]).
Proof.
  intros Hne Hself Hch Hl Hchl Hadd1 Hp.
  destruct (Node_add_Ok self (VObj l) w o ch l w Hself Hch eq_refl)
    as [E1 Hc1].
  rewrite Hadd1 in E1. injection E1 as ->.
  assert (heap (set_heap (alter (append_child l) self (heap w)) w) !! l
          = Some ol) as Hl1 by (simpl; rewrite lookup_alter_ne; done).
  destruct (Node_add_Ok l v _ ol chl c w2 Hl1 Hchl Hp) as [E3 Hc3].
  eexists. split_and!; [exact E3 | | exact Hc3].
  simpl. rewrite lookup_alter_ne by done.
  simpl in Hc1.
  destruct (alter (append_child l) self (heap w) !! self) as [o1|] eqn:E;
    [|done].
  by rewrite (parse_obj_keeps _ _ _ _ _ _ Hp E).
Qed.

(** ** The fetch cache *)

#[global] Instance cache_kept_preorder : PreOrder cache_kept.
Proof.
  split.
  - intros w. unfold cache_kept. reflexivity.
  - intros w1 w2 w3. unfold cache_kept. intros. by etrans.
Qed.

#[global] Instance frame_preorder P : PreOrder (frame P).
Proof.
  split.
  - intros w. unfold frame. split_and!; done.
  - intros w1 w2 w3 (?&?&?&?&?&?&?&Hf12) (?&?&?&?&?&?&?&Hf23).
    unfold frame. split_and!; try congruence; try (by etrans).
    intros p Hp. by rewrite Hf23, Hf12.
Qed.





(** What [_get_url] does, by cases: a hit, an answered request, a failed
    request. *)
Lemma get_url_run `{Platform} url w :
  _get_url url w =
  match _CACHE w !! url with
  | Some content => (Ok content, w)
  | None =>
      match urlopen_read (requests w) url with
      | Some content =>
          (Ok content,
           set_CACHE (<[url:=content]> (_CACHE w))
                     (set_requests ((url, true) :: requests w) w))
      | None =>
          (Raise (URLError url), set_requests ((url, false) :: requests w) w)
      end
  end.
Proof.
  unfold _get_url, cache_get, urlopen. run.
  destruct (_CACHE w !! url) as [content|] eqn:E; run.
  - by rewrite E.
  - destruct (urlopen_read (requests w) url) as [content|]; run; [|done].
    by rewrite lookup_insert_eq.
Qed.

Lemma get_url_Ok_cached `{Platform} url w content w' :
  _get_url url w = (Ok content, w') → _CACHE w' !! url = Some content.
Proof.
  rewrite get_url_run. destruct (_CACHE w !! url) as [c|] eqn:E.
  - by intros [= <- <-].
  - destruct (urlopen_read _ _); [|done]. intros [= <- <-]. simpl.
    apply lookup_insert_eq.
Qed.


Lemma res_filename_run `{Platform} url ext w :
  _res_filename url ext w =
  match _get_url url w with
  | (Ok content, w') => (Ok (content_name ext content), w')
  | (Raise e, w') => (Raise e, w')
  end.
Proof.
  unfold _res_filename. rewrite run_bind.
  destruct (_get_url url w) as [[content|e] w']; [|done].
  unfold lift, content_name. simpl. by rewrite append_nil_r.
Qed.

















(** C9. The local file name of a resource is made of the extension and the
    MD5 of the content fetched for the URL (a dot, the extension, the hex
    digest, a dot, the extension), and of nothing else: two resources with
    the same content and extension get the same name, whatever their URLs. *)
Theorem res_filename_content_addressed `{Platform} (url1 url2 ext : string)
    (w w1 w2 : World) (n1 n2 : string) :
  _res_filename url1 ext w = (Ok n1, w1) →
  _res_filename url2 ext w1 = (Ok n2, w2) →
  ∃ c1 c2,
    _get_url url1 w = (Ok c1, w1) ∧ _CACHE w1 !! url1 = Some c1
    ∧ _get_url url2 w1 = (Ok c2, w2) ∧ _CACHE w2 !! url2 = Some c2
    ∧ n1 = "." +:+ ext +:+ md5_hexdigest c1 +:+ "." +:+ ext
    ∧ n2 = "." +:+ ext +:+ md5_hexdigest c2 +:+ "." +:+ ext
    ∧ (c1 = c2 → n1 = n2).
Proof.
  rewrite !res_filename_run.
  destruct (_get_url url1 w) as [[c1|e] w1'] eqn:E1; [|done].
  intros [= <- <-].
  destruct (_get_url url2 w1') as [[c2|e] w2'] eqn:E2; [|done].
  intros [= <- <-].
  exists c1, c2. split_and!; try done.
  - by eapply get_url_Ok_cached.
  - by eapply get_url_Ok_cached.
  - by intros ->.
Qed.

Lemma res_filename_content_addressed_witness :
  (_res_filename (H:=online) "a" "css" at_import).1 = Ok ".css7.css"
  ∧ (_res_filename (H:=online) "b" "css"
       (_res_filename (H:=online) "a" "css" at_import).2).1 = Ok ".css7.css"
  ∧ ∃ c1 c2,
      ".css7.css" = "." +:+ "css" +:+ md5_hexdigest (Platform:=online) c1
                    +:+ "." +:+ "css"
      ∧ ".css7.css" = "." +:+ "css" +:+ md5_hexdigest (Platform:=online) c2
                      +:+ "." +:+ "css".
Proof.
  split_and!; [reflexivity | reflexivity |].
  destruct (res_filename_content_addressed (H:=online) "a" "b" "css"
              at_import _ _ ".css7.css" ".css7.css" eq_refl eq_refl)
    as (c1 & c2 & _ & _ & _ & _ & Hn1 & Hn2 & _).
  exists c1, c2. split; [exact Hn1 | exact Hn2].
Defined.

(** ** [save], step by step *)

Lemma get_path_run `{Platform} w : get_path w = (Ok (default_folder w), w).
Proof. reflexivity. Qed.

Lemma os_makedirs_made {A} fo (k : M A) w :
  (ex ← os_path_exists fo;
   (if negb ex then os_makedirs fo else mret tt);; k) w =
  k (made_folder fo w).
Proof.
  unfold os_path_exists, os_makedirs, os_mkdir, made_folder. run.
  by destruct (_ || _).
Qed.

Lemma auto_opening_Ok `{Platform} path auto_open w :
  ∃ w', auto_opening path auto_open w = (Ok tt, w')
        ∧ files w' = files w ∧ _CACHE w' = _CACHE w.
Proof.
  unfold auto_opening. destruct auto_open; run; by eexists.
Qed.

(** [save] is: make the folder; check the modes; materialize the
    resources; open the output file; render; write; open the browser. *)
Lemma save_run `{Platform} self title ch folder filename prefix
    integrated web local auto_open w :
  heap w !! self = Some (OReport title ch) →
  Report.save self folder filename prefix integrated web local auto_open w =
  let fo := target_folder folder w in
  let path := target_path title folder filename prefix w in
  if negb (integrated || web || local)
  then (Raise mode_error, made_folder fo w)
  else
    (materialize fo (effective integrated local);;
     open_w path;;
     doc ← Report._render self integrated (effective integrated web)
                          (effective integrated local);
     fwrite path doc;;
     auto_opening path auto_open) (made_folder fo w).
Proof.
  intros Hself. unfold Report.save. rewrite run_bind. unfold gets at 1.
  cbn beta iota. rewrite Hself.
  assert (∀ k : string → M unit,
    (fo ← match folder with None => get_path | Some f => mret f end; k fo) w
    = k (target_folder folder w) w) as ->.
  { intros k. by destruct folder. }
  cbn beta. rewrite os_makedirs_made.
  assert (∀ (k : string → M unit) w',
    (fn ← match filename with
          | None => lift (py_mod "%s.html" [FStr (slug title)])
          | Some f => mret f
          end; k fn) w'
    = k (default (slug title +:+ ".html") filename) w') as Hfn.
  { intros k w'. destruct filename; [done|]. rewrite run_bind. unfold lift.
    simpl. reflexivity. }
  rewrite Hfn; clear Hfn.
  assert (∀ (k : string → M unit) w',
    now w' = now w →
    (p ← match prefix with
         | None => gets (λ w, strftime "%Y_%m_%d-%H_%M_%S-" (now w))
         | Some p => mret p
         end; k p) w'
    = k (default (timestamp (now w)) prefix) w') as Hp.
  { intros k w' Hnow. destruct prefix; [done|]. rewrite run_bind.
    unfold gets. by rewrite Hnow. }
  rewrite Hp by (unfold made_folder; by destruct (_ || _)); clear Hp.
  cbn zeta. fold (target_path title folder filename prefix w).
  destruct integrated, web, local; reflexivity.
Qed.




(** With a mode selected, [save] goes past the check. *)
Lemma save_run_checked `{Platform} self title ch folder filename prefix
    integrated web local auto_open w :
  heap w !! self = Some (OReport title ch) →
  integrated || web || local = true →
  Report.save self folder filename prefix integrated web local auto_open w =
    (materialize (target_folder folder w) (effective integrated local);;
     open_w (target_path title folder filename prefix w);;
     doc ← Report._render self integrated (effective integrated web)
                          (effective integrated local);
     fwrite (target_path title folder filename prefix w) doc;;
     auto_opening (target_path title folder filename prefix w) auto_open)
    (made_folder (target_folder folder w) w).
Proof.
  intros Hself Hsome. rewrite (save_run _ _ _ _ _ _ _ _ _ _ _ Hself).
  cbn zeta. by rewrite Hsome.
Qed.


(** The steps after the resources are in place: open, render, write. *)
Lemma save_write_run `{Platform} self integrated web local auto_open path w :
  (open_w path;;
   doc ← Report._render self integrated web local;
   fwrite path doc;;
   auto_opening path auto_open) w =
  match Report._render self integrated web local (opened path w) with
  | (Ok doc, w2) =>
      auto_opening path auto_open
        (set_files (<[path:=default "" (files w2 !! path) +:+ doc]> (files w2))
                   w2)
  | (Raise e, w2) => (Raise e, w2)
  end.
Proof.
  rewrite run_bind. change (open_w path w) with (Ok tt, opened path w).
  cbn beta iota. rewrite run_bind.
  destruct (Report._render _ _ _ _ _) as [[doc|e] w2]; [|done].
  by rewrite run_bind.
Qed.







(** ** The slug *)

Lemma re1_sub_filter s :
  list_ascii_of_string (_re1_sub "" s) =
  List.filter kept (list_ascii_of_string s).
Proof.
  unfold _re1_sub. induction s as [|c s IH]; [done|].
  cbn [re_sub_class list_ascii_of_string List.filter].
  unfold _re1 at 1. fold (kept c).
  destruct (kept c); simpl; [by f_equal | done].
Qed.

Lemma lstrip_drop s :
  list_ascii_of_string (py_lstrip s) = drop_spaces (list_ascii_of_string s).
Proof.
  induction s as [|c s IH]; [done|]. simpl. by destruct (is_space c).
Qed.

Lemma drop_spaces_snoc l c :
  drop_spaces (l ++ [c]) =
  match drop_spaces l with
  | [] => if is_space c then [] else [c]
  | r => r ++ [c]
  end.
Proof.
  induction l as [|d l IH]; simpl; [done|].
  destruct (is_space d); [done|]. done.
Qed.

Lemma rstrip_drop s :
  list_ascii_of_string (py_rstrip s) =
  rev (drop_spaces (rev (list_ascii_of_string s))).
Proof.
  induction s as [|c s IH]; [done|].
  cbn [py_rstrip list_ascii_of_string rev]. rewrite drop_spaces_snoc.
  destruct (py_rstrip s) as [|d r] eqn:E.
  - simpl in IH. destruct (drop_spaces (rev (list_ascii_of_string s))) as [|x xs].
    + by destruct (is_space c).
    + apply (f_equal (@length _)) in IH. rewrite length_rev in IH. done.
  - destruct (drop_spaces (rev (list_ascii_of_string s))) as [|x xs].
    + done.
    + rewrite rev_app_distr. simpl. f_equal. exact IH.
Qed.

Lemma strip_trimmed s :
  list_ascii_of_string (py_strip s) = trimmed (list_ascii_of_string s).
Proof. unfold py_strip, trimmed. by rewrite rstrip_drop, lstrip_drop. Qed.


Lemma squeezed_head l :
  starts_with_space l = true →
  ∃ x rest, squeezed l = x :: rest ∧ is_space x = true.
Proof.
  induction l as [|c l IH]; [done|]. simpl. intros Hc.
  destruct l as [|d l]; [by eauto|].
  destruct (is_space c && is_space d) eqn:E; [|by eauto].
  apply IH. simpl. by apply andb_prop in E as [_ ?].
Qed.

Lemma squeezed_cons_space c l :
  is_space c = true →
  map underscored (squeezed (c :: l)) =
  "_"%char :: (if starts_with_space l
               then tail (map underscored (squeezed l))
               else map underscored (squeezed l)).
Proof.
  intros Ec. destruct l as [|d l].
  - simpl. unfold underscored. by rewrite Ec.
  - change (squeezed (c :: d :: l))
      with (if is_space c && is_space d then squeezed (d :: l)
            else c :: squeezed (d :: l)).
    cbn [starts_with_space]. rewrite Ec. cbn [andb].
    destruct (is_space d) eqn:Ed.
    + destruct (squeezed_head (d :: l)) as (x & rest & Hx & Hsp); [done|].
      rewrite Hx. cbn [map tail]. unfold underscored at 1. by rewrite Hsp.
    + cbn [map]. unfold underscored at 1. by rewrite Ec.
Qed.

Lemma squeezed_cons_other c l :
  is_space c = false →
  map underscored (squeezed (c :: l)) = c :: map underscored (squeezed l).
Proof.
  intros Ec.
  assert (squeezed (c :: l) = c :: squeezed l) as ->.
  { simpl. destruct l; [done|]. by rewrite Ec. }
  cbn [map]. unfold underscored at 1. by rewrite Ec.
Qed.

Lemma re_sub_runs_squeezed s :
  list_ascii_of_string (re_sub_runs _re2 "_" false s) =
    map underscored (squeezed (list_ascii_of_string s))
  ∧ list_ascii_of_string (re_sub_runs _re2 "_" true s) =
    if starts_with_space (list_ascii_of_string s)
    then tail (map underscored (squeezed (list_ascii_of_string s)))
    else map underscored (squeezed (list_ascii_of_string s)).
Proof.
  induction s as [|c s [IHf IHt]]; [done|].
  cbn [re_sub_runs list_ascii_of_string starts_with_space].
  change (_re2 c) with (is_space c).
  change ("_" +:+ re_sub_runs _re2 "_" true s)
    with (String "_" (re_sub_runs _re2 "_" true s)).
  destruct (is_space c) eqn:Ec.
  - rewrite squeezed_cons_space by done.
    cbn [list_ascii_of_string tail]. by rewrite IHt.
  - rewrite squeezed_cons_other by done.
    cbn [list_ascii_of_string]. by rewrite IHf.
Qed.

(** The slug [save] computes is the slug of the specification, with the
    trimming step. *)
Lemma slug_is_reference title : slug title = slug_reference title.
Proof.
  unfold slug, slug_reference, _re2_sub.
  rewrite <- (string_of_list_ascii_of_string (re_sub_runs _ _ _ _)).
  f_equal. rewrite (proj1 (re_sub_runs_squeezed _)).
  by rewrite strip_trimmed, re1_sub_filter.
Qed.

(** Only letters, digits, underscores and hyphens are left. *)
Lemma slug_characters title c :
  c ∈ list_ascii_of_string (slug title) → is_word c || is_hyphen c = true.
Proof.
  rewrite slug_is_reference. unfold slug_reference.
  rewrite list_ascii_of_string_of_list_ascii.
  intros (x & -> & Hx)%list_elem_of_fmap.
  assert (∀ l, x ∈ squeezed l → x ∈ l) as Hsq.
  { clear. induction l as [|c l IH]; [done|]. simpl.
    destruct l as [|d l]; [done|].
    destruct (is_space c && is_space d).
    - intros ?. right. by apply IH.
    - intros [->|?]%elem_of_cons; [left | right; by apply IH]. }
  assert (∀ l, x ∈ drop_spaces l → x ∈ l) as Hdr.
  { clear. induction l as [|c l IH]; [done|]. simpl.
    destruct (is_space c); [|done]. intros ?. right. by apply IH. }
  apply Hsq in Hx. unfold trimmed in Hx.
  apply list_elem_of_In, in_rev, list_elem_of_In, Hdr in Hx.
  apply list_elem_of_In, in_rev, list_elem_of_In, Hdr in Hx.
  apply list_elem_of_In, filter_In in Hx as [_ Hk].
  unfold underscored, kept in *.
  destruct (is_space x); [done|].
  by rewrite orb_false_r in Hk.
Qed.


Lemma example_slug : slug "My Report! (v2)" = "My_Report_v2".
Proof. reflexivity. Qed.

Lemma space_not_alnum c : is_space c = true → is_alnum_or_hyphen c = false.
Proof. destruct c as [[] [] [] [] [] [] [] []]; vm_compute; congruence. Qed.

Lemma alnum_kept c : is_alnum_or_hyphen c = true → kept c = true.
Proof. destruct c as [[] [] [] [] [] [] [] []]; vm_compute; congruence. Qed.

Lemma filter_alnum_drop_spaces l :
  List.filter is_alnum_or_hyphen (drop_spaces l) =
  List.filter is_alnum_or_hyphen l.
Proof.
  induction l as [|c l IH]; [done|]. simpl.
  destruct (is_space c) eqn:Ec; [|done].
  by rewrite (space_not_alnum c Ec).
Qed.

Lemma List_filter_cons {A} (f : A → bool) x l :
  List.filter f (x :: l) = if f x then x :: List.filter f l else List.filter f l.
Proof. reflexivity. Qed.

Lemma filter_alnum_squeezed l :
  List.filter is_alnum_or_hyphen (squeezed l) =
  List.filter is_alnum_or_hyphen l.
Proof.
  induction l as [|c l IH]; [done|].
  destruct l as [|d l]; [done|].
  change (squeezed (c :: d :: l))
    with (if is_space c && is_space d then squeezed (d :: l)
          else c :: squeezed (d :: l)).
  destruct (is_space c) eqn:Ec; cbn [andb].
  - rewrite (List_filter_cons _ c (d :: l)), (space_not_alnum c Ec).
    destruct (is_space d); [done|].
    by rewrite (List_filter_cons _ c (squeezed _)), (space_not_alnum c Ec).
  - rewrite !(List_filter_cons _ c). by rewrite IH.
Qed.

Lemma filter_alnum_underscored l :
  List.filter is_alnum_or_hyphen (map underscored l) =
  List.filter is_alnum_or_hyphen l.
Proof.
  induction l as [|c l IH]; [done|]. simpl. rewrite IH.
  unfold underscored. destruct (is_space c) eqn:Ec; [|done].
  by rewrite (space_not_alnum c Ec).
Qed.

Lemma filter_alnum_kept l :
  List.filter is_alnum_or_hyphen (List.filter kept l) =
  List.filter is_alnum_or_hyphen l.
Proof.
  induction l as [|c l IH]; [done|]. simpl.
  destruct (kept c) eqn:Ek; simpl; rewrite IH; [done|].
  destruct (is_alnum_or_hyphen c) eqn:Ea; [|done].
  apply alnum_kept in Ea. congruence.
Qed.

(** The letters, digits and hyphens of the slug are those of the title, in
    the same order and case. *)
Lemma slug_reference_keeps_letters title :
  List.filter is_alnum_or_hyphen (list_ascii_of_string (slug_reference title)) =
  List.filter is_alnum_or_hyphen (list_ascii_of_string title).
Proof.
  unfold slug_reference, trimmed.
  rewrite list_ascii_of_string_of_list_ascii.
  rewrite filter_alnum_underscored, filter_alnum_squeezed.
  rewrite filter_rev, filter_alnum_drop_spaces, filter_rev, rev_involutive.
  by rewrite filter_alnum_drop_spaces, filter_alnum_kept.
Qed.

(** ** The time stamp *)

Lemma pad2_two_digits z : (0 ≤ z < 100)%Z → pad2 z = two_digits z.
Proof.
  intros Hz.
  assert (forallb (λ n, String.eqb (pad2 (Z.of_nat n)) (two_digits (Z.of_nat n)))
                  (seq 0 100) = true) as Hall by (vm_compute; reflexivity).
  rewrite forallb_forall in Hall.
  specialize (Hall (Z.to_nat z)). rewrite Z2Nat.id in Hall by lia.
  apply String.eqb_eq, Hall, in_seq. lia.
Qed.

Lemma str_int_four_digits z : (1000 ≤ z ≤ 9999)%Z → str_int z = four_digits z.
Proof.
  intros Hz.
  assert (forallb (λ n, String.eqb (str_int (Z.of_nat n))
                                   (four_digits (Z.of_nat n)))
                  (seq (Z.to_nat 1000) (Z.to_nat 9000)) = true) as Hall by (vm_compute; reflexivity).
  rewrite forallb_forall in Hall.
  specialize (Hall (Z.to_nat z)). rewrite Z2Nat.id in Hall by lia.
  apply String.eqb_eq, Hall, in_seq. lia.
Qed.

Lemma timestamp_is_form `{Platform} t :
  valid_time t → timestamp t = timestamp_form t.
Proof.
  intros (Hy & Hm & Hd & Hh & Hmi & Hs).
  unfold timestamp_form.
  rewrite <- str_int_four_digits by done.
  rewrite <- !pad2_two_digits by lia.
  reflexivity.
Qed.

(** *** The order of time stamps *)

Lemma compare_div_mod (B a b : Z) (r : comparison) :
  (0 < B)%Z →
  match (a `div` B ?= b `div` B)%Z with
  | Eq => match (a `mod` B ?= b `mod` B)%Z with Eq => r | x => x end
  | x => x
  end =
  match (a ?= b)%Z with Eq => r | x => x end.
Proof.
  intros HB.
  pose proof (Z.div_mod a B ltac:(lia)) as Ha.
  pose proof (Z.div_mod b B ltac:(lia)) as Hb.
  pose proof (Z.mod_pos_bound a B HB) as Ha'.
  pose proof (Z.mod_pos_bound b B HB) as Hb'.
  destruct (Z.compare_spec (a `div` B) (b `div` B)) as [E|E|E].
  - destruct (Z.compare_spec (a `mod` B) (b `mod` B)) as [E'|E'|E'];
      destruct (Z.compare_spec a b); try done; nia.
  - destruct (Z.compare_spec a b); try done; nia.
  - destruct (Z.compare_spec a b); try done; nia.
Qed.

Lemma compare_digit (x y : Z) :
  (0 ≤ x ≤ 9)%Z → (0 ≤ y ≤ 9)%Z →
  Ascii.compare (digit x) (digit y) = (x ?= y)%Z.
Proof.
  intros Hx Hy.
  assert (forallb (λ a, forallb (λ b,
            bool_decide (Ascii.compare (digit (Z.of_nat a)) (digit (Z.of_nat b))
                         = (Z.of_nat a ?= Z.of_nat b)%Z)) (seq 0 10))
            (seq 0 10) = true) as Hall by (vm_compute; reflexivity).
  rewrite forallb_forall in Hall.
  specialize (Hall (Z.to_nat x)). rewrite forallb_forall in Hall.
  specialize (Hall ltac:(apply in_seq; lia) (Z.to_nat y) ltac:(apply in_seq; lia)).
  rewrite !Z2Nat.id in Hall by lia. by apply bool_decide_eq_true in Hall.
Qed.

Lemma compare_String c d s s' :
  String.compare (String c s) (String d s') =
  match Ascii.compare c d with Eq => String.compare s s' | r => r end.
Proof. reflexivity. Qed.

Lemma compare_two_digits (a b : Z) (s s' : string) :
  (0 ≤ a < 100)%Z → (0 ≤ b < 100)%Z →
  String.compare (two_digits a +:+ s) (two_digits b +:+ s') =
  match (a ?= b)%Z with Eq => String.compare s s' | r => r end.
Proof.
  intros Ha Hb. unfold two_digits.
  change (String ?c (String ?d "") +:+ ?x) with (String c (String d x)).
  rewrite !compare_String.
  pose proof (Z.div_mod a 10 ltac:(lia)).
  pose proof (Z.mod_pos_bound a 10 ltac:(lia)).
  pose proof (Z.div_mod b 10 ltac:(lia)).
  pose proof (Z.mod_pos_bound b 10 ltac:(lia)).
  rewrite !compare_digit by lia.
  apply compare_div_mod. lia.
Qed.

Lemma compare_four_digits (a b : Z) (s s' : string) :
  (0 ≤ a < 10000)%Z → (0 ≤ b < 10000)%Z →
  String.compare (four_digits a +:+ s) (four_digits b +:+ s') =
  match (a ?= b)%Z with Eq => String.compare s s' | r => r end.
Proof.
  intros Ha Hb. unfold four_digits. rewrite !append_assoc.
  pose proof (Z.div_mod a 100 ltac:(lia)).
  pose proof (Z.mod_pos_bound a 100 ltac:(lia)).
  pose proof (Z.div_mod b 100 ltac:(lia)).
  pose proof (Z.mod_pos_bound b 100 ltac:(lia)).
  rewrite compare_two_digits by lia.
  rewrite <- (compare_div_mod 100 a b) by lia.
  destruct (a `div` 100 ?= b `div` 100)%Z; try done.
  apply compare_two_digits; lia.
Qed.

Lemma compare_separator c s s' :
  String.compare (String c s) (String c s') = String.compare s s'.
Proof.
  rewrite compare_String.
  assert (Ascii.compare c c = Eq) as ->; [|done].
  unfold Ascii.compare. apply N.compare_refl.
Qed.

(** Time stamps compare as strings the way the times compare. *)
Lemma timestamp_sortable `{Platform} t1 t2 :
  valid_time t1 → valid_time t2 →
  String.compare (timestamp t1) (timestamp t2) = time_compare t1 t2.
Proof.
  intros V1 V2. rewrite !timestamp_is_form by done.
  destruct V1 as (?&?&?&?&?&?), V2 as (?&?&?&?&?&?).
  unfold timestamp_form, time_compare.
  rewrite compare_four_digits by lia.
  destruct (tm_year t1 ?= tm_year t2)%Z; try done.
  change ("_" +:+ ?x) with (String "_" x). rewrite compare_separator.
  rewrite compare_two_digits by lia.
  destruct (tm_mon t1 ?= tm_mon t2)%Z; try done.
  change ("_" +:+ ?x) with (String "_" x). rewrite compare_separator.
  rewrite compare_two_digits by lia.
  destruct (tm_mday t1 ?= tm_mday t2)%Z; try done.
  change ("-" +:+ ?x) with (String "-" x). rewrite compare_separator.
  rewrite compare_two_digits by lia.
  destruct (tm_hour t1 ?= tm_hour t2)%Z; try done.
  change ("_" +:+ ?x) with (String "_" x). rewrite compare_separator.
  rewrite compare_two_digits by lia.
  destruct (tm_min t1 ?= tm_min t2)%Z; try done.
  change ("_" +:+ ?x) with (String "_" x). rewrite compare_separator.
  rewrite compare_two_digits by lia.
  destruct (tm_sec t1 ?= tm_sec t2)%Z; done.
Qed.

(** ** The default file name *)

(** When [save] returns, the output file holds a document. *)
Lemma save_Ok_writes `{Platform} self title ch folder filename prefix
    integrated web local auto_open w w' :
  heap w !! self = Some (OReport title ch) →
  Report.save self folder filename prefix integrated web local auto_open w
    = (Ok tt, w') →
  is_Some (files w' !! target_path title folder filename prefix w).
Proof.
  intros Hself Hsave.
  destruct (integrated || web || local) eqn:Hmode.
  - rewrite (save_run_checked _ _ _ _ _ _ _ _ _ _ _ Hself Hmode) in Hsave.
    apply run_bind_inv_Ok in Hsave as ([] & w1 & _ & Hsave).
    rewrite save_write_run in Hsave.
    destruct (Report._render _ _ _ _ _) as [[doc|e] w2]; [|done].
    destruct (auto_opening_Ok (target_path title folder filename prefix w)
                auto_open
                (set_files
                   (<[target_path title folder filename prefix w
                      :=default "" (files w2 !!
                           target_path title folder filename prefix w)
                        +:+ doc]> (files w2)) w2))
      as (w3 & E & Hfiles & _).
    rewrite E in Hsave. injection Hsave as <-. rewrite Hfiles. simpl.
    rewrite lookup_insert_eq. by eexists.
  - rewrite (save_run _ _ _ _ _ _ _ _ _ _ _ Hself) in Hsave.
    cbn zeta in Hsave. by rewrite Hmode in Hsave.
Qed.

(** C10, as the code has it.  Without a file name, [save] writes to the
    folder the file whose name is the prefix, the slug of the title and
    [.html].  The slug is the title without the characters that are neither
    word characters, white space nor hyphens, then without the white space
    at its ends, then with every run of white space turned into one
    underscore: letters, digits and hyphens stay as they are, and nothing
    but letters, digits, underscores and hyphens is left.  The title
    [My Report! (v2)] gives [My_Report_v2.html].  The default prefix, for a
    time with a year of four digits, has the form YYYY_MM_DD-HH_MM_SS-, and
    such prefixes sort as strings the way the times do. *)
Theorem save_default_filename `{Platform} (self : loc) (title : string)
    (ch : list loc) (folder prefix : option string)
    (integrated web local auto_open : bool) (w w' : World) :
  heap w !! self = Some (OReport title ch) →
  Report.save self folder None prefix integrated web local auto_open w
    = (Ok tt, w') →
  is_Some (files w' !!
             path_join (target_folder folder w)
                       (default (timestamp (now w)) prefix
                        +:+ slug_reference title +:+ ".html"))
  ∧ List.filter is_alnum_or_hyphen
      (list_ascii_of_string (slug_reference title)) =
    List.filter is_alnum_or_hyphen (list_ascii_of_string title)
  ∧ (∀ c, c ∈ list_ascii_of_string (slug_reference title) →
          is_word c || is_hyphen c = true)
  ∧ slug_reference "My Report! (v2)" +:+ ".html" = "My_Report_v2.html"
  ∧ (valid_time (now w) → timestamp (now w) = timestamp_form (now w))
  ∧ (∀ t1 t2, valid_time t1 → valid_time t2 →
       String.compare (timestamp t1) (timestamp t2) = time_compare t1 t2).
Proof.
  intros Hself Hsave. split_and!.
  - pose proof (save_Ok_writes _ _ _ _ _ _ _ _ _ _ _ _ Hself Hsave) as Hw.
    unfold target_path in Hw. simpl in Hw. by rewrite slug_is_reference in Hw.
  - apply slug_reference_keeps_letters.
  - intros c. rewrite <- slug_is_reference. apply slug_characters.
  - reflexivity.
  - apply timestamp_is_form.
  - intros t1 t2. apply timestamp_sortable.
Qed.

Lemma save_default_filename_witness :
  heap (with_report "My Report! (v2)") !! 1%positive
    = Some (OReport "My Report! (v2)" [])
  ∧ (Report.save (H:=online) 1 (Some "/out") None None false true false false
                 (with_report "My Report! (v2)")).1 = Ok tt
  ∧ is_Some (files (Report.save (H:=online) 1 (Some "/out") None None
                                false true false false
                                (with_report "My Report! (v2)")).2
             !! "/out/2016_01_01-00_00_00-My_Report_v2.html").
Proof.
  split_and!; [reflexivity | reflexivity |].
  destruct (Report.save (H:=online) 1 (Some "/out") None None
              false true false false (with_report "My Report! (v2)"))
    as [r w'] eqn:E.
  assert (r = Ok tt) as ->.
  { change r with (r, w').1. rewrite <- E. reflexivity. }
  exact (proj1 (save_default_filename (H:=online) 1 "My Report! (v2)" []
                  (Some "/out") None false true false false
                  (with_report "My Report! (v2)") w' eq_refl E)).
Defined.

(** C10, as stated, fails: without the trimming step the title
    [Q3 results (!)] would give [Q3_results_.html]; [save] writes
    [Q3_results.html]. *)
Lemma save_trims_the_slug :
  slug_untrimmed "Q3 results (!)" +:+ ".html" = "Q3_results_.html"
  ∧ files (Report.save (H:=online) 1 (Some "/out") None (Some "")
                       false true false false
                       (with_report "Q3 results (!)")).2
    !! "/out/Q3_results_.html" = None
  ∧ is_Some (files (Report.save (H:=online) 1 (Some "/out") None (Some "")
                                false true false false
                                (with_report "Q3 results (!)")).2
             !! "/out/Q3_results.html").
Proof. split_and!; [reflexivity | reflexivity | vm_compute; eauto]. Qed.
